(** * The example content source: field codec, translators, update applier
      and change observer

    A shallow embedding of [example-content-source/example-source-utils.ts]
    and of the [ExampleContentSource] class of
    [example-content-source/example-content-source.ts].

    JavaScript values are kept as a small value type, objects used as
    dictionaries ([Record<string, T>]) are finite maps of their own
    properties, with the members inherited from [Object.prototype] and
    the assignment to [__proto__] written out where the code reads or
    writes under a computed key, a thrown exception is the [Thrown] case
    of [result], and the
    asynchronous calls to the store client are the effects of a small free
    monad [Prog]. *)

From Stdlib Require Import ZArith DecimalString.
From stdpp Require Import gmap strings list fin_maps.

Open Scope string_scope.
Open Scope list_scope.

(* ===================================================================== *)
(** ** JavaScript values and exceptions *)
(* ===================================================================== *)

(** The values a native field can hold (the source types them [any]). *)
#[local] Set Warnings "-register-all".
Inductive JsValue : Type :=
| JsUndefined
| JsNull
| JsBoolean (b : bool)
| JsNumber (z : Z)
| JsString (s : string)
| JsArray (items : list JsValue)
| JsObject (entries : list (string * JsValue)).
#[local] Set Warnings "register-all".

(** What a call can throw.  [JsError] is [new Error(message)], thrown by
    the bridge itself; [JsTypeError] is the runtime's error for reading the
    property [property] of [undefined]; [StoreRejected] is a failure
    reported by the store client, which the bridge never catches. *)
Inductive Exn : Type :=
| JsError (message : string)
| JsTypeError (property : string)
| StoreRejected (reason : string).

Inductive result (A : Type) : Type :=
| Ok (a : A)
| Thrown (e : Exn).
Arguments Ok {A} a.
Arguments Thrown {A} e.

Definition rbind {A B} (r : result A) (k : A -> result B) : result B :=
  match r with
  | Ok a => k a
  | Thrown e => Thrown e
  end.

#[global] Instance result_ret : MRet result := @Ok.
#[global] Instance result_bind : MBind result := fun A B k r => rbind r k.

(** [for (const x of xs) { acc = step(acc, x) }] where [step] may throw:
    the elements are visited left to right and the first exception ends
    the loop. *)
Fixpoint foldM {A B} (step : A -> B -> result A) (acc : A) (xs : list B)
  : result A :=
  match xs with
  | [] => Ok acc
  | x :: xs' => acc' ← step acc x; foldM step acc' xs'
  end.

(** [xs.map(f)] where [f] may throw. *)
Fixpoint mapM {A B} (f : A -> result B) (xs : list A) : result (list B) :=
  match xs with
  | [] => Ok []
  | x :: xs' => y ← f x; ys ← mapM f xs'; Ok (y :: ys)
  end.

(* ===================================================================== *)
(** ** Data model *)
(* ===================================================================== *)

(** The closed vocabulary of field type tags the switches range over. *)
Inductive FieldType : Type :=
| TString | TUrl | TSlug | TText | TMarkdown | THtml | TBoolean | TDate
| TDatetime | TColor | TNumber | TEnum | TFile | TJson | TStyle | TRichText
| TImage | TReference
| TObject | TModel | TCrossReference | TList.

(** The tag as the string the source compares and prints. *)
Definition fieldTypeName (t : FieldType) : string :=
  match t with
  | TString => "string" | TUrl => "url" | TSlug => "slug" | TText => "text"
  | TMarkdown => "markdown" | THtml => "html" | TBoolean => "boolean"
  | TDate => "date" | TDatetime => "datetime" | TColor => "color"
  | TNumber => "number" | TEnum => "enum" | TFile => "file"
  | TJson => "json" | TStyle => "style" | TRichText => "richText"
  | TImage => "image" | TReference => "reference"
  | TObject => "object" | TModel => "model"
  | TCrossReference => "cross-reference" | TList => "list"
  end.

(** The sixteen tags whose value is stored as it is. *)
Definition isScalarType (t : FieldType) : bool :=
  match t with
  | TString | TUrl | TSlug | TText | TMarkdown | THtml | TBoolean | TDate
  | TDatetime | TColor | TNumber | TEnum | TFile | TJson | TStyle
  | TRichText => true
  | _ => false
  end.

(** The four composite tags. *)
Definition isCompositeType (t : FieldType) : bool :=
  match t with
  | TObject | TModel | TCrossReference | TList => true
  | _ => false
  end.

(** A model field: [{ type, name, models? }]. *)
Record Field : Type := mkField {
  field_type : FieldType;
  field_name : string;
  field_models : list string
}.

(** A model: [{ type, name, fields? }]; [fields] is optional. *)
Record Model : Type := mkModel {
  model_type : string;
  model_name : string;
  model_fields : option (list Field)
}.

(** A document of the store.  [doc_fields] is [Object.entries(fields)],
    the entries in the order the loop visits them. *)
Record ExampleDocument : Type := mkExampleDocument {
  doc_id : string;
  doc_type : string;
  doc_status : string;
  doc_createdAt : string;
  doc_updatedAt : string;
  doc_fields : list (string * JsValue)
}.

(** An asset of the store. *)
Record ExampleAsset : Type := mkExampleAsset {
  asset_id : string;
  asset_createdAt : string;
  asset_updatedAt : string;
  asset_title : string;
  asset_url : string;
  asset_width : Z;
  asset_height : Z
}.

(** A field of a normalized document: [{ type, value }] or
    [{ type: 'reference', refType, refId }]. *)
Inductive DocumentField : Type :=
| DocumentValueField (type : FieldType) (value : JsValue)
| DocumentReferenceField (refType : string) (refId : JsValue).

(** A normalized document ([context] is the empty object); [d_fields] is
    the own properties of [fields]. *)
Record Document : Type := mkDocument {
  d_type : string;
  d_id : string;
  d_modelName : string;
  d_status : string;
  d_manageUrl : string;
  d_createdAt : string;
  d_updatedAt : string;
  d_fields : gmap string DocumentField
}.

(** The two fields of a normalized asset. *)
Record AssetFields : Type := mkAssetFields {
  af_title : DocumentField;
  af_file_url : string;
  af_file_width : Z;
  af_file_height : Z
}.

Record Asset : Type := mkAsset {
  a_type : string;
  a_id : string;
  a_createdAt : string;
  a_updatedAt : string;
  a_status : string;
  a_manageUrl : string;
  a_fields : AssetFields
}.

(** An update-operation field as the object the switch reads: its [type]
    tag and the properties [value], [refType] and [refId]; a property the
    object does not have reads as [JsUndefined]. *)
Record UpdateOperationField : Type := mkUpdateOperationField {
  uof_type : FieldType;
  uof_value : JsValue;
  uof_refType : JsValue;
  uof_refId : JsValue
}.

(** A segment of a field path: [(string | number)[]].  The bridge does one
    thing with a segment: it uses it as a property key, and a number used
    as a key is converted by Number::toString.  A number segment is kept
    as the string this conversion gives for it: ["0"], ["12"], ["-1"],
    ["1.5"], ["1e+21"], ["NaN"]. *)
Inductive PathSegment : Type :=
| SegString (s : string)
| SegNumber (numberToString : string).

(** The update operations of the host.  Only [set] and [unset] are read by
    the bridge; of the other kinds only [opType] is. *)
Inductive UpdateOperation : Type :=
| OpSet (field : UpdateOperationField) (fieldPath : list PathSegment)
| OpUnset (fieldPath : list PathSegment) (modelField : Field)
| OpInsert (fieldPath : list PathSegment) (item : UpdateOperationField)
| OpRemove (fieldPath : list PathSegment) (index : N)
| OpReorder (fieldPath : list PathSegment) (order : list N).

Definition opType (op : UpdateOperation) : string :=
  match op with
  | OpSet _ _ => "set"
  | OpUnset _ _ => "unset"
  | OpInsert _ _ => "insert"
  | OpRemove _ _ => "remove"
  | OpReorder _ _ => "reorder"
  end.

Definition opFieldPath (op : UpdateOperation) : list PathSegment :=
  match op with
  | OpSet _ p | OpUnset p _ | OpInsert p _ | OpRemove p _ | OpReorder p _ => p
  end.

(* ===================================================================== *)
(** ** Plain objects: inherited members and assignment *)
(* ===================================================================== *)

(** The names every plain object inherits from [Object.prototype]. *)
Definition objectPrototypeMembers : list string :=
  ["constructor"; "__defineGetter__"; "__defineSetter__"; "hasOwnProperty";
   "__lookupGetter__"; "__lookupSetter__"; "isPrototypeOf";
   "propertyIsEnumerable"; "toString"; "valueOf"; "__proto__";
   "toLocaleString"].

Definition inheritedMember (key : string) : bool :=
  existsb (String.eqb key) objectPrototypeMembers.

(** What [obj[key]] gives for an inherited name, read as a model: a
    function, or [Object.prototype] itself for [__proto__], none of which
    has a [fields] property.  The document translator reads nothing else
    of a model. *)
Definition inheritedMemberAsModel : Model :=
  {| model_type := ""; model_name := ""; model_fields := None |}.

(** [modelMap[key]] on a plain object: the own property of that name, else
    the member inherited under that name, else [undefined]. *)
Definition modelMapGet (modelMap : gmap string Model) (key : string)
  : option Model :=
  match modelMap !! key with
  | Some model => Some model
  | None =>
      if inheritedMember key then Some inheritedMemberAsModel else None
  end.

(** [fields[key] = value] where [fields] starts as [{}] and every value
    assigned is an object literal, as in the document translator, seen
    from the own properties of [fields].  Under the name [__proto__] the
    assignment goes to the setter inherited from [Object.prototype]: it
    makes the object literal the prototype of [fields] and adds no own
    property.  (The prototype is not part of the model: the bridge never
    reads it.) *)
Definition assignField {V : Type} (key : string) (value : V)
    (fields : gmap string V) : gmap string V :=
  if String.eqb key "__proto__" then fields else <[key := value]> fields.

(** The prototype of the object the update applier builds: still
    [Object.prototype], or what an assignment to [__proto__] has put in
    its place, [null] or a native value that is an object. *)
Inductive Prototype : Type :=
| ObjectPrototype
| NullPrototype
| ValuePrototype (value : JsValue).

(** The object the update applier builds: own properties and prototype. *)
Record NativeFields : Type := mkNativeFields {
  properties : gmap string JsValue;
  prototype : Prototype
}.

(** [{}]. *)
Definition emptyObject : NativeFields :=
  {| properties := ∅; prototype := ObjectPrototype |}.

(** Whether an assignment to [__proto__] reaches the setter of
    [Object.prototype]: not when the object has an own property of that
    name, nor when its prototype is [null] or is a native object with an
    own entry of that name (native objects and arrays are plain data,
    with [Object.prototype] behind them). *)
Definition protoSetterReached (o : NativeFields) : bool :=
  match properties o !! "__proto__" with
  | Some _ => false
  | None =>
      match prototype o with
      | ObjectPrototype => true
      | NullPrototype => false
      | ValuePrototype (JsObject entries) =>
          negb (existsb (fun entry => String.eqb (fst entry) "__proto__")
                        entries)
      | ValuePrototype _ => true
      end
  end.

(** [fields[key] = value].  For every name but [__proto__] this sets the
    own property.  For [__proto__], when the setter is reached, an object
    or [null] becomes the prototype and any other value is ignored;
    otherwise the own property of that name is set. *)
Definition assign (key : string) (value : JsValue) (o : NativeFields)
  : NativeFields :=
  if String.eqb key "__proto__" && protoSetterReached o then
    match value with
    | JsObject _ | JsArray _ =>
        {| properties := properties o; prototype := ValuePrototype value |}
    | JsNull => {| properties := properties o; prototype := NullPrototype |}
    | _ => o
    end
  else
    {| properties := <[key := value]> (properties o);
       prototype := prototype o |}.

(* ===================================================================== *)
(** ** example-source-utils.ts *)
(* ===================================================================== *)

(** The status expression of [convertExampleDocumentsToStackbitDocuments]:
    [status === 'draft' ? 'added' : status === 'published' ? 'published'
    : 'modified']. *)
Definition convertStatus (status : string) : string :=
  if String.eqb status "draft" then "added"
  else if String.eqb status "published" then "published"
  else "modified".

(** The [switch (modelField.type)] of the document translator: the
    normalized field built for a native value under a model field's tag. *)
Definition convertFieldValue (type : FieldType) (fieldValue : JsValue)
  : result DocumentField :=
  match type with
  | TString | TUrl | TSlug | TText | TMarkdown | THtml | TBoolean | TDate
  | TDatetime | TColor | TNumber | TEnum | TFile | TJson | TStyle
  | TRichText =>
      Ok (DocumentValueField type fieldValue)
  | TImage => Ok (DocumentReferenceField "asset" fieldValue)
  | TReference => Ok (DocumentReferenceField "document" fieldValue)
  | TObject | TModel | TCrossReference | TList =>
      Thrown (JsError ("field of type " +:+ fieldTypeName type
                       +:+ " not implemented"))
  end.

(** [fields.find((field) => field.name === fieldName)]. *)
Definition findField (fields : list Field) (fieldName : string)
  : option Field :=
  List.find (fun field => String.eqb (field_name field) fieldName) fields.

(** The callback of [Object.entries(document.fields).reduce(...)].
    [model] is [modelMap[document.type]], [None] when that is [undefined]:
    then [model.fields] is a read on [undefined]. *)
Definition reduceField (model : option Model)
    (fields : gmap string DocumentField) (entry : string * JsValue)
  : result (gmap string DocumentField) :=
  let '(fieldName, fieldValue) := entry in
  match model with
  | None => Thrown (JsTypeError "fields")
  | Some model =>
      let modelField :=
        match model_fields model with
        | None => None
        | Some fs => findField fs fieldName
        end in
      match modelField with
      | None => Ok fields
      | Some modelField =>
          f ← convertFieldValue (field_type modelField) fieldValue;
          Ok (assignField fieldName f fields)
      end
  end.

(** The callback of [documents.map(...)]. *)
Definition convertExampleDocument (modelMap : gmap string Model)
    (manageUrl : string) (document : ExampleDocument) : result Document :=
  let model := modelMapGet modelMap (doc_type document) in
  fields ← foldM (reduceField model) ∅ (doc_fields document);
  Ok {| d_type := "document";
        d_id := doc_id document;
        d_modelName := doc_type document;
        d_status := convertStatus (doc_status document);
        d_manageUrl := manageUrl +:+ "/document/" +:+ doc_id document;
        d_createdAt := doc_createdAt document;
        d_updatedAt := doc_updatedAt document;
        d_fields := fields |}.

Definition convertExampleDocumentsToStackbitDocuments
    (documents : list ExampleDocument) (modelMap : gmap string Model)
    (manageUrl : string) : result (list Document) :=
  mapM (convertExampleDocument modelMap manageUrl) documents.

Definition convertExampleAsset (manageUrl siteLocalhost : string)
    (asset : ExampleAsset) : Asset :=
  {| a_type := "asset";
     a_id := asset_id asset;
     a_createdAt := asset_createdAt asset;
     a_updatedAt := asset_updatedAt asset;
     a_status := "published";
     a_manageUrl := manageUrl +:+ "/assets/" +:+ asset_id asset;
     a_fields :=
       {| af_title := DocumentValueField TString (JsString (asset_title asset));
          af_file_url := siteLocalhost +:+ asset_url asset;
          af_file_width := asset_width asset;
          af_file_height := asset_height asset |} |}.

Definition convertExampleAssetToStackbitAssets (assets : list ExampleAsset)
    (manageUrl siteLocalhost : string) : list Asset :=
  map (convertExampleAsset manageUrl siteLocalhost) assets.

(** [convertUpdateOperationFieldToExampleDocumentField]. *)
Definition convertUpdateOperationFieldToExampleDocumentField
    (updateOperationField : UpdateOperationField) : result JsValue :=
  match uof_type updateOperationField with
  | TString | TUrl | TSlug | TText | TMarkdown | THtml | TBoolean | TDate
  | TDatetime | TColor | TNumber | TEnum | TFile | TJson | TStyle
  | TRichText =>
      Ok (uof_value updateOperationField)
  | TReference => Ok (uof_refId updateOperationField)
  | TImage | TObject | TModel | TCrossReference | TList =>
      Thrown (JsError ("updating field of type "
                       +:+ fieldTypeName (uof_type updateOperationField)
                       +:+ " not implemented"))
  end.

(** [convertUpdateOperationFieldsToExampleDocumentFields]; the argument is
    [Object.entries(updateOperationFields)]. *)
Definition convertUpdateOperationFieldsToExampleDocumentFields
    (updateOperationFields : list (string * UpdateOperationField))
  : result NativeFields :=
  foldM (fun (fields : NativeFields) entry =>
           v ← convertUpdateOperationFieldToExampleDocumentField (snd entry);
           Ok (assign (fst entry) v fields))
        emptyObject updateOperationFields.

(** The property key [fields[fieldPath[0]] = ...] writes: the first
    segment converted to a string, ["undefined"] for the empty path. *)
Definition propertyKey (fieldPath : list PathSegment) : string :=
  match fieldPath with
  | [] => "undefined"
  | SegString s :: _ => s
  | SegNumber numberToString :: _ => numberToString
  end.

(** The body of the loop of
    [convertUpdateOperationsToExampleDocumentFields]. *)
Definition applyOperation (fields : NativeFields)
    (operation : UpdateOperation) : result NativeFields :=
  match operation with
  | OpSet field fieldPath =>
      v ← convertUpdateOperationFieldToExampleDocumentField field;
      Ok (assign (propertyKey fieldPath) v fields)
  | OpUnset fieldPath modelField =>
      match field_type modelField with
      | TString | TUrl | TSlug | TText | TMarkdown | THtml | TBoolean
      | TDate | TDatetime | TColor | TNumber | TEnum | TFile | TJson
      | TStyle | TRichText | TImage | TReference =>
          Ok (assign (propertyKey fieldPath) JsUndefined fields)
      | TObject | TModel | TCrossReference | TList =>
          Thrown (JsError ("updating field of type "
                           +:+ fieldTypeName (field_type modelField)
                           +:+ " not implemented"))
      end
  | _ =>
      Thrown (JsError ("'" +:+ opType operation
                       +:+ "' operation not implemented"))
  end.

Definition convertUpdateOperationsToExampleDocumentFields
    (updateOperations : list UpdateOperation) : result NativeFields :=
  foldM applyOperation emptyObject updateOperations.

(** A normalized field read as an update-operation field: the same object,
    [{ type, value }] or [{ type: 'reference', refType, refId }]. *)
Definition asUpdateOperationField (f : DocumentField) : UpdateOperationField :=
  match f with
  | DocumentValueField type value =>
      {| uof_type := type; uof_value := value;
         uof_refType := JsUndefined; uof_refId := JsUndefined |}
  | DocumentReferenceField refType refId =>
      {| uof_type := TReference; uof_value := JsUndefined;
         uof_refType := JsString refType; uof_refId := refId |}
  end.

(* ===================================================================== *)
(** ** Asynchronous calls *)
(* ===================================================================== *)

(** An event of the store's notification stream, read as the callback
    reads it: its [name] and the payload properties [document],
    [documentId] and [asset], [None] / [JsUndefined] when absent. *)
Record ExampleEvent : Type := mkExampleEvent {
  ev_name : string;
  ev_document : option ExampleDocument;
  ev_documentId : JsValue;
  ev_asset : option ExampleAsset
}.

(** The batch the observer assembles. *)
Record ContentChangeEvent : Type := mkContentChangeEvent {
  documents : list Document;
  assets : list Asset;
  deletedDocumentIds : list JsValue;
  deletedAssetIds : list JsValue
}.

(** The calls an [async] method awaits on the store client, indexed by
    the type of the answer.  [GetWebhook] and [CreateWebhook] answer
    whether a webhook came back. *)
Inductive Call : Type -> Type :=
| GetWebhook (name : string) : Call bool
| CreateWebhook (name : string) : Call bool
| StartObservingContentChanges
    (callback : list ExampleEvent -> result ContentChangeEvent) : Call string
| StopObservingContentChanges (observerId : string) : Call unit
| UploadAsset (url title : string) (width height : Z) : Call ExampleAsset.

(** The body of an [async] method: it returns, throws, writes a line to
    the logger, or awaits a call and goes on with the answer. *)
Inductive Prog (A : Type) : Type :=
| Ret (a : A)
| Throw (e : Exn)
| LoggerDebug (message : string) (k : Prog A)
| Await {X : Type} (c : Call X) (k : X -> Prog A).
Arguments Ret {A} a.
Arguments Throw {A} e.
Arguments LoggerDebug {A} message k.
Arguments Await {A X} c k.

Fixpoint pbind {A B} (p : Prog A) (f : A -> Prog B) : Prog B :=
  match p with
  | Ret a => f a
  | Throw e => Throw e
  | LoggerDebug message k => LoggerDebug message (pbind k f)
  | Await c k => Await c (fun x => pbind (k x) f)
  end.

#[global] Instance Prog_ret : MRet Prog := @Ret.
#[global] Instance Prog_bind : MBind Prog := fun A B f p => pbind p f.

Definition await {X} (c : Call X) : Prog X := Await c Ret.

(** One entry of the sequence of effects a run has had. *)
Inductive TraceEntry : Type :=
| Logged (message : string)
| Called {X : Type} (c : Call X).

(** How a store answers a call in state [S]: an answer, or a rejection
    with its reason. *)
Definition Handler (S : Type) : Type :=
  forall X, Call X -> S -> (X + string) * S.

(** Running a method body against a store; every line logged and every
    call awaited is recorded.  A rejected call is not caught: it ends the
    method. *)
Fixpoint run {S A} (h : Handler S) (p : Prog A) (s : S)
    (trace : list TraceEntry) : result A * S * list TraceEntry :=
  match p with
  | Ret a => (Ok a, s, trace)
  | Throw e => (Thrown e, s, trace)
  | LoggerDebug message k => run h k s (trace ++ [Logged message])
  | Await c k =>
      match h _ c s with
      | (inl x, s') => run h (k x) s' (trace ++ [Called c])
      | (inr reason, s') =>
          (Thrown (StoreRejected reason), s', trace ++ [Called c])
      end
  end.

Definition isStopCall (e : TraceEntry) : bool :=
  match e with
  | Called (StopObservingContentChanges _) => true
  | _ => false
  end.

(* ===================================================================== *)
(** ** example-content-source.ts: the ExampleContentSource class *)
(* ===================================================================== *)

(** JavaScript truthiness of a [string | undefined]. *)
Definition truthy (s : option string) : bool :=
  match s with
  | Some s => negb (String.eqb s "")
  | None => false
  end.

Record ContentSourceOptions : Type := mkContentSourceOptions {
  cso_projectId : string;
  cso_databaseFilePath : option string;
  cso_siteLocalhost : option string
}.

(** The instance: the fields the constructor sets, then those [init] sets
    ([None] until it has run), then [observerId]. *)
Record ExampleContentSource : Type := mkExampleContentSource {
  projectId : string;
  databaseFilePath : option string;
  manageUrl : string;
  siteLocalhost : string;
  logger : option string;
  userLogger : option string;
  localDev : option bool;
  apiClient : option (option string);
  observerId : option string
}.

Definition set_observerId (this : ExampleContentSource)
    (id : option string) : ExampleContentSource :=
  {| projectId := projectId this;
     databaseFilePath := databaseFilePath this;
     manageUrl := manageUrl this;
     siteLocalhost := siteLocalhost this;
     logger := logger this;
     userLogger := userLogger this;
     localDev := localDev this;
     apiClient := apiClient this;
     observerId := id |}.

(** [constructor({ projectId, databaseFilePath, siteLocalhost })]. *)
Definition new_ExampleContentSource (options : ContentSourceOptions)
  : result ExampleContentSource :=
  if truthy (Some (cso_projectId options)) then
    Ok {| projectId := cso_projectId options;
          databaseFilePath := cso_databaseFilePath options;
          manageUrl := "https://example.com/project/" +:+ cso_projectId options;
          siteLocalhost := default "http://localhost:3000"
                                   (cso_siteLocalhost options);
          logger := None; userLogger := None; localDev := None;
          apiClient := None; observerId := None |}
  else Thrown (JsError "ExampleContentSource requires projectId").

(** [this.logger.debug(message)]; [this.logger] is undefined before
    [init]. *)
Definition debug (this : ExampleContentSource) (message : string)
  : Prog unit :=
  match logger this with
  | Some _ => LoggerDebug message (Ret tt)
  | None => Throw (JsTypeError "debug")
  end.

Record InitOptions : Type := mkInitOptions {
  io_localDev : bool;
  io_webhookUrl : option string
}.

(** [init({ logger, userLogger, localDev, webhookUrl })]. *)
Definition init (this : ExampleContentSource) (options : InitOptions)
  : Prog ExampleContentSource :=
  let this :=
    {| projectId := projectId this;
       databaseFilePath := databaseFilePath this;
       manageUrl := manageUrl this;
       siteLocalhost := siteLocalhost this;
       logger := Some "example-content-source";
       userLogger := Some "example-content-source";
       localDev := Some (io_localDev options);
       apiClient := Some (databaseFilePath this);
       observerId := observerId this |} in
  _ ← debug this "initialized ExampleContentSource";
  if truthy (io_webhookUrl options) then
    _ ← debug this "checking if stackbit webhook exists";
    webhook ← await (GetWebhook "stackbit-content-source");
    webhook ← (if negb webhook then
                 _ ← debug this "no webhook 'stackbit-content-source' was found, creating a new webhook";
                 newWebhook ← await (CreateWebhook "stackbit-content-source");
                 Ret (if newWebhook : bool then newWebhook else webhook)
               else Ret webhook);
    _ ← (if webhook : bool then debug this "got a stackbit-content-source webhook"
         else Ret tt);
    Ret this
  else Ret this.

(** The argument of [startWatchingContentUpdates].  Of the five functions
    the host passes, the method reads [getModelMap] only. *)
Record WatchOptions : Type := mkWatchOptions {
  getModelMap : unit -> gmap string Model
}.

Definition emptyContentChange : ContentChangeEvent :=
  {| documents := []; assets := [];
     deletedDocumentIds := []; deletedAssetIds := [] |}.

(** The body of [for (const event of events)] in the observer callback. *)
Definition classifyEvent (this : ExampleContentSource) (options : WatchOptions)
    (contentChange : ContentChangeEvent) (event : ExampleEvent)
  : result ContentChangeEvent :=
  if String.eqb (ev_name event) "document-created"
     || String.eqb (ev_name event) "document-updated" then
    let modelMap := getModelMap options tt in
    match ev_document event with
    | None => Thrown (JsTypeError "type")
    | Some document =>
        converted ← convertExampleDocumentsToStackbitDocuments
                      [document] modelMap (manageUrl this);
        match converted with
        | createdDocument :: _ =>
            Ok {| documents := documents contentChange ++ [createdDocument];
                  assets := assets contentChange;
                  deletedDocumentIds := deletedDocumentIds contentChange;
                  deletedAssetIds := deletedAssetIds contentChange |}
        | [] => Ok contentChange
        end
    end
  else if String.eqb (ev_name event) "document-deleted" then
    Ok {| documents := documents contentChange;
          assets := assets contentChange;
          deletedDocumentIds :=
            deletedDocumentIds contentChange ++ [ev_documentId event];
          deletedAssetIds := deletedAssetIds contentChange |}
  else if String.eqb (ev_name event) "asset-created" then
    match ev_asset event with
    | None => Thrown (JsTypeError "id")
    | Some asset =>
        match convertExampleAssetToStackbitAssets
                [asset] (manageUrl this) (siteLocalhost this) with
        | createdAsset :: _ =>
            Ok {| documents := documents contentChange;
                  assets := assets contentChange ++ [createdAsset];
                  deletedDocumentIds := deletedDocumentIds contentChange;
                  deletedAssetIds := deletedAssetIds contentChange |}
        | [] => Ok contentChange
        end
    end
  else Ok contentChange.

(** The callback handed to [startObservingContentChanges]. *)
Definition contentChangeCallback (this : ExampleContentSource)
    (options : WatchOptions) (events : list ExampleEvent)
  : result ContentChangeEvent :=
  foldM (classifyEvent this options) emptyContentChange events.

(** [stopWatchingContentUpdates()]: [this] is left as it is. *)
Definition stopWatchingContentUpdates (this : ExampleContentSource)
  : Prog unit :=
  if truthy (observerId this) then
    match apiClient this with
    | None => Throw (JsTypeError "stopObservingContentChanges")
    | Some _ =>
        await (StopObservingContentChanges (default "" (observerId this)))
    end
  else Ret tt.

(** [startWatchingContentUpdates(options)]; the result is [this] after
    the assignment to [this.observerId]. *)
Definition startWatchingContentUpdates (this : ExampleContentSource)
    (options : WatchOptions) : Prog ExampleContentSource :=
  _ ← (if truthy (observerId this) then stopWatchingContentUpdates this
       else Ret tt);
  match apiClient this with
  | None => Throw (JsTypeError "startObservingContentChanges")
  | Some _ =>
      id ← await (StartObservingContentChanges
                    (contentChangeCallback this options));
      Ret (set_observerId this (Some id))
  end.

Record AccessResult : Type := mkAccessResult {
  hasConnection : bool;
  hasPermissions : bool
}.

(** [hasAccess(options)]: the value the returned promise resolves to.
    [localDev] is undefined, hence falsy, before [init]. *)
Definition hasAccess (this : ExampleContentSource) (userContext : option unit)
  : AccessResult :=
  if default false (localDev this) then
    {| hasConnection := true; hasPermissions := true |}
  else
    {| hasConnection := true; hasPermissions := true |}.

Record UploadAssetOptions : Type := mkUploadAssetOptions {
  ua_url : option string;
  ua_base64 : option string;
  ua_fileName : string;
  ua_mimeType : string;
  ua_locale : option string
}.

(** [uploadAsset(options)]. *)
Definition uploadAsset (this : ExampleContentSource)
    (options : UploadAssetOptions) : Prog Asset :=
  _ ← debug this "uploadAsset";
  if negb (truthy (ua_url options)) then
    Throw (JsError "uploading assets from base64 is not supported")
  else
    match apiClient this with
    | None => Throw (JsTypeError "uploadAsset")
    | Some _ =>
        asset ← await (UploadAsset (default "" (ua_url options))
                                   (ua_fileName options) 100 100);
        match convertExampleAssetToStackbitAssets
                [asset] (manageUrl this) (siteLocalhost this) with
        | uploaded :: _ => Ret uploaded
        | [] => Throw (JsTypeError "id")
        end
    end.

(* ===================================================================== *)
(** ** The store client *)
(* ===================================================================== *)

(** Modelled from the spec: the store client ([ExampleApiClient], whose
    file is not among the sources).  The spec gives it
    [startObservingContentChanges(callback) -> subscriptionHandle] and
    [stopObservingContentChanges(handle)]; here the client keeps the live
    subscriptions in a list, hands out the handles [observer-0],
    [observer-1], ..., and forgets a subscription when it is stopped.
    [uploadAsset(url, title, width, height)] stores an asset with these
    four values. *)
Record Store : Type := mkStore {
  st_observers :
    list (string * (list ExampleEvent -> result ContentChangeEvent));
  st_nextId : nat;
  st_assets : list ExampleAsset;
  st_webhook : bool
}.

Definition decimal (n : nat) : string :=
  NilEmpty.string_of_uint (Nat.to_uint n).

Definition observerName (n : nat) : string := "observer-" +:+ decimal n.

Definition storeClient : Handler Store :=
  fun X c s =>
    match c in Call T return (T + string) * Store with
    | GetWebhook _ => (inl (st_webhook s), s)
    | CreateWebhook _ =>
        (inl true,
         {| st_observers := st_observers s; st_nextId := st_nextId s;
            st_assets := st_assets s; st_webhook := true |})
    | StartObservingContentChanges callback =>
        (inl (observerName (st_nextId s)),
         {| st_observers :=
              st_observers s ++ [(observerName (st_nextId s), callback)];
            st_nextId := S (st_nextId s);
            st_assets := st_assets s; st_webhook := st_webhook s |})
    | StopObservingContentChanges observerId =>
        (inl tt,
         {| st_observers :=
              filter (fun o => fst o ≠ observerId) (st_observers s);
            st_nextId := st_nextId s;
            st_assets := st_assets s; st_webhook := st_webhook s |})
    | UploadAsset url title width height =>
        let asset :=
          {| asset_id := "asset-" +:+ decimal (st_nextId s);
             asset_createdAt := ""; asset_updatedAt := "";
             asset_title := title; asset_url := url;
             asset_width := width; asset_height := height |} in
        (inl asset,
         {| st_observers := st_observers s; st_nextId := S (st_nextId s);
            st_assets := st_assets s ++ [asset];
            st_webhook := st_webhook s |})
    end.

Definition emptyStore : Store :=
  {| st_observers := []; st_nextId := 0; st_assets := [];
     st_webhook := false |}.

(** The host's calls to the change observer. *)
Inductive WatchCall : Type :=
| HostStart (options : WatchOptions)
| HostStop.

(** One call of the host on the instance; a method that throws leaves
    [this] as it was. *)
Definition watchStep {S} (h : Handler S)
    (st : ExampleContentSource * S * list TraceEntry) (call : WatchCall)
  : ExampleContentSource * S * list TraceEntry :=
  let '(this, s, trace) := st in
  match call with
  | HostStart options =>
      match run h (startWatchingContentUpdates this options) s trace with
      | (Ok this', s', trace') => (this', s', trace')
      | (Thrown _, s', trace') => (this, s', trace')
      end
  | HostStop =>
      let '(_, s', trace') := run h (stopWatchingContentUpdates this) s trace in
      (this, s', trace')
  end.

Definition watchCalls {S} (h : Handler S)
    (st : ExampleContentSource * S * list TraceEntry) (calls : list WatchCall)
  : ExampleContentSource * S * list TraceEntry :=
  fold_left (watchStep h) calls st.

(** An instance as [new ExampleContentSource] followed by [init] leaves
    it, for the examples below. *)
Definition exampleSource : ExampleContentSource :=
  {| projectId := "example";
     databaseFilePath := None;
     manageUrl := "https://example.com/project/example";
     siteLocalhost := "http://localhost:3000";
     logger := Some "example-content-source";
     userLogger := Some "example-content-source";
     localDev := Some true;
     apiClient := Some None;
     observerId := None |}.

Definition noModels : WatchOptions := {| getModelMap := fun _ => ∅ |}.

(** The model and the document of the end-to-end example. *)
Definition postModel : Model :=
  {| model_type := "data"; model_name := "post";
     model_fields := Some [mkField TString "title" [];
                           mkField TReference "author" ["person"]] |}.

Definition postDocument : ExampleDocument :=
  {| doc_id := "p1"; doc_type := "post"; doc_status := "draft";
     doc_createdAt := "2023-01-01"; doc_updatedAt := "2023-01-02";
     doc_fields := [("title", JsString "Hi"); ("author", JsString "a1")] |}.

(* ===================================================================== *)
(** ** Auxiliary definitions for the statements *)
(* ===================================================================== *)

(** An image field as the host could send it, carrying a reference to the
    asset [asset-1]. *)
Definition imageUpdate : UpdateOperationField :=
  {| uof_type := TImage; uof_value := JsUndefined;
     uof_refType := JsString "asset"; uof_refId := JsString "asset-1" |}.

(** The two messages with which the codec reports a tag it does not
    support: [UnsupportedFieldType]. *)
Definition unsupportedInDocument (t : FieldType) : Exn :=
  JsError ("field of type " +:+ fieldTypeName t +:+ " not implemented").

Definition unsupportedInUpdate (t : FieldType) : Exn :=
  JsError ("updating field of type " +:+ fieldTypeName t +:+ " not implemented").

(** A model with a list field, and a document of it. *)
Definition pageModel : Model :=
  {| model_type := "data"; model_name := "page";
     model_fields := Some [mkField TString "title" [];
                           mkField TList "sections" []] |}.

Definition pageDocument : ExampleDocument :=
  {| doc_id := "g1"; doc_type := "page"; doc_status := "published";
     doc_createdAt := "2023-02-01"; doc_updatedAt := "2023-02-02";
     doc_fields := [("title", JsString "Home"); ("sections", JsArray [])] |}.


(** The event kinds the observer callback acts on. *)
Definition recognizedEvent (event : ExampleEvent) : bool :=
  String.eqb (ev_name event) "document-created"
  || String.eqb (ev_name event) "document-updated"
  || String.eqb (ev_name event) "document-deleted"
  || String.eqb (ev_name event) "asset-created".

(** What links the instance and the store between two calls of the host:
    the store has no live subscription, or exactly one, whose handle is
    the one stored in [this.observerId]. *)
Definition watchInvariant (this : ExampleContentSource) (s : Store) : Prop :=
  st_observers s = []
  \/ exists id callback,
       st_observers s = [(id, callback)]
       /\ observerId this = Some id /\ id <> "".

(* ===================================================================== *)
(** ** The model translator *)
(* ===================================================================== *)

(** The type tags of the store's own models: the cases of the exhaustive
    [switch (field.type)] of [convertExampleModelsToStackbitModels]. *)
Inductive ExampleFieldType : Type :=
| EString | EText | EMarkdown | EDate | EImage | EReference.

(** The tag as the string the store's models carry in [field.type]. *)
Definition exampleFieldTypeName (t : ExampleFieldType) : string :=
  match t with
  | EString => "string"
  | EText => "text"
  | EMarkdown => "markdown"
  | EDate => "date"
  | EImage => "image"
  | EReference => "reference"
  end.

(** The tag as the normalized vocabulary has it ([type: field.type]). *)
Definition exampleFieldTypeTag (t : ExampleFieldType) : FieldType :=
  match t with
  | EString => TString
  | EText => TText
  | EMarkdown => TMarkdown
  | EDate => TDate
  | EImage => TImage
  | EReference => TReference
  end.

(** A field of a store model; [allowedTypes] is read for references. *)
Record ExampleField : Type := mkExampleField {
  ef_type : ExampleFieldType;
  ef_name : string;
  ef_allowedTypes : list string
}.

Record ExampleModel : Type := mkExampleModel {
  em_name : string;
  em_fields : list ExampleField
}.

(** The callback of [model.fields.map(...)]. *)
Definition convertExampleField (field : ExampleField) : Field :=
  match ef_type field with
  | EString | EText | EMarkdown | EDate | EImage =>
      {| field_type := exampleFieldTypeTag (ef_type field);
         field_name := ef_name field;
         field_models := [] |}
  | EReference =>
      {| field_type := TReference;
         field_name := ef_name field;
         field_models := ef_allowedTypes field |}
  end.

Definition convertExampleModel (model : ExampleModel) : Model :=
  {| model_type := "data";
     model_name := em_name model;
     model_fields := Some (map convertExampleField (em_fields model)) |}.

Definition convertExampleModelsToStackbitModels (models : list ExampleModel)
  : list Model :=
  map convertExampleModel models.

(* ===================================================================== *)
(** ** The reading and writing methods of ExampleContentSource *)
(* ===================================================================== *)

(** The store calls of the reading and writing methods. *)
Inductive DataCall : Type -> Type :=
| GetModels : DataCall (list ExampleModel)
| GetDocuments : DataCall (list ExampleDocument)
| GetAssets : DataCall (list ExampleAsset)
| CreateDocument (type : string) (fields : NativeFields)
  : DataCall ExampleDocument
| UpdateDocument (documentId : string) (fields : NativeFields)
  : DataCall ExampleDocument
| DeleteDocument (documentId : string) : DataCall unit
| PublishDocuments (documentIds : list string) : DataCall unit.

(** The body of such a method, built like [Prog]. *)
Inductive DataProg (A : Type) : Type :=
| DRet (a : A)
| DThrow (e : Exn)
| DLog (message : string) (k : DataProg A)
| DAwait {X : Type} (c : DataCall X) (k : X -> DataProg A).
Arguments DRet {A} a.
Arguments DThrow {A} e.
Arguments DLog {A} message k.
Arguments DAwait {A X} c k.

Fixpoint dbind {A B} (p : DataProg A) (f : A -> DataProg B) : DataProg B :=
  match p with
  | DRet a => f a
  | DThrow e => DThrow e
  | DLog message k => DLog message (dbind k f)
  | DAwait c k => DAwait c (fun x => dbind (k x) f)
  end.

#[global] Instance DataProg_ret : MRet DataProg := @DRet.
#[global] Instance DataProg_bind : MBind DataProg :=
  fun A B f p => dbind p f.

Definition dataAwait {X} (c : DataCall X) : DataProg X := DAwait c DRet.

(** A synchronous call that may throw, inside an [async] body. *)
Definition liftResult {A} (r : result A) : DataProg A :=
  match r with
  | Ok a => DRet a
  | Thrown e => DThrow e
  end.

Inductive DataTraceEntry : Type :=
| DataLogged (message : string)
| DataCalled {X : Type} (c : DataCall X).

Definition DataHandler (S : Type) : Type :=
  forall X, DataCall X -> S -> (X + string) * S.

Fixpoint runData {S A} (h : DataHandler S) (p : DataProg A) (s : S)
    (trace : list DataTraceEntry) : result A * S * list DataTraceEntry :=
  match p with
  | DRet a => (Ok a, s, trace)
  | DThrow e => (Thrown e, s, trace)
  | DLog message k => runData h k s (trace ++ [DataLogged message])
  | DAwait c k =>
      match h _ c s with
      | (inl x, s') => runData h (k x) s' (trace ++ [DataCalled c])
      | (inr reason, s') =>
          (Thrown (StoreRejected reason), s', trace ++ [DataCalled c])
      end
  end.

Definition isDataCall (e : DataTraceEntry) : bool :=
  match e with
  | DataLogged _ => false
  | DataCalled _ => true
  end.

(** [this.logger.debug(message)] in these methods. *)
Definition dataDebug (this : ExampleContentSource) (message : string)
  : DataProg unit :=
  match logger this with
  | Some _ => DLog message (DRet tt)
  | None => DThrow (JsTypeError "debug")
  end.

(** [await this.apiClient.method(...)]: reading [method] on an undefined
    [apiClient] throws. *)
Definition clientAwait {X} (this : ExampleContentSource) (method : string)
    (c : DataCall X) : DataProg X :=
  match apiClient this with
  | Some _ => dataAwait c
  | None => DThrow (JsTypeError method)
  end.

Definition getContentSourceType (this : ExampleContentSource) : string :=
  "example".

Definition getProjectId (this : ExampleContentSource) : string :=
  projectId this.

Definition getProjectEnvironment (this : ExampleContentSource) : string :=
  "production".

Definition getProjectManageUrl (this : ExampleContentSource) : string :=
  manageUrl this.

(** [getModels()]. *)
Definition getModels (this : ExampleContentSource) : DataProg (list Model) :=
  _ ← dataDebug this "getModels";
  models ← clientAwait this "getModels" GetModels;
  _ ← dataDebug this ("got " +:+ decimal (length models) +:+ " models");
  DRet (convertExampleModelsToStackbitModels models).

(** [getDocuments({ modelMap })]. *)
Definition getDocuments (this : ExampleContentSource)
    (modelMap : gmap string Model) : DataProg (list Document) :=
  _ ← dataDebug this "getDocuments";
  documents ← clientAwait this "getDocuments" GetDocuments;
  _ ← dataDebug this ("got " +:+ decimal (length documents) +:+ " documents");
  liftResult (convertExampleDocumentsToStackbitDocuments
                documents modelMap (manageUrl this)).

(** [getAssets()]. *)
Definition getAssets (this : ExampleContentSource) : DataProg (list Asset) :=
  _ ← dataDebug this "getAssets";
  assets ← clientAwait this "getAssets" GetAssets;
  _ ← dataDebug this ("got " +:+ decimal (length assets) +:+ " assets");
  DRet (convertExampleAssetToStackbitAssets
          assets (manageUrl this) (siteLocalhost this)).

(** [convert([document], modelMap, this.manageUrl)[0]]. *)
Definition convertOne (this : ExampleContentSource)
    (modelMap : gmap string Model) (document : ExampleDocument)
  : DataProg Document :=
  converted ← liftResult (convertExampleDocumentsToStackbitDocuments
                            [document] modelMap (manageUrl this));
  match converted with
  | d :: _ => DRet d
  | [] => DThrow (JsTypeError "0") (* not reached: [map] keeps the length *)
  end.

Record CreateDocumentOptions : Type := mkCreateDocumentOptions {
  cd_updateOperationFields : list (string * UpdateOperationField);
  cd_model : Model;
  cd_modelMap : gmap string Model
}.

(** [createDocument(options)]. *)
Definition createDocument (this : ExampleContentSource)
    (options : CreateDocumentOptions) : DataProg Document :=
  _ ← dataDebug this "createDocument";
  fields ← liftResult (convertUpdateOperationFieldsToExampleDocumentFields
                         (cd_updateOperationFields options));
  document ← clientAwait this "createDocument"
               (CreateDocument (model_name (cd_model options)) fields);
  _ ← dataDebug this ("created document, id: " +:+ doc_id document);
  convertOne this (cd_modelMap options) document.

Record UpdateDocumentOptions : Type := mkUpdateDocumentOptions {
  ud_document : Document;
  ud_operations : list UpdateOperation;
  ud_modelMap : gmap string Model
}.

(** [updateDocument(options)]. *)
Definition updateDocument (this : ExampleContentSource)
    (options : UpdateDocumentOptions) : DataProg Document :=
  _ ← dataDebug this "updateDocument";
  fields ← liftResult (convertUpdateOperationsToExampleDocumentFields
                         (ud_operations options));
  document ← clientAwait this "updateDocument"
               (UpdateDocument (d_id (ud_document options)) fields);
  _ ← dataDebug this ("update document, id: " +:+ doc_id document);
  convertOne this (ud_modelMap options) document.

(** [deleteDocument({ document })]. *)
Definition deleteDocument (this : ExampleContentSource) (document : Document)
  : DataProg unit :=
  clientAwait this "deleteDocument" (DeleteDocument (d_id document)).

(** [publishDocuments({ documents, assets })]. *)
Definition publishDocuments (this : ExampleContentSource)
    (documents : list Document) (assets : list Asset) : DataProg unit :=
  clientAwait this "publishDocuments" (PublishDocuments (map d_id documents)).

(* ===================================================================== *)
(** ** lib/api: lookups by id *)
(* ===================================================================== *)

(** [getAssetById(assetId?)]: [null] is [None]. *)
Definition getAssetById (assetId : option string)
  : DataProg (option ExampleAsset) :=
  if negb (truthy assetId) then DRet None
  else
    assets ← dataAwait GetAssets;
    DRet (List.find (fun asset =>
                       String.eqb (asset_id asset) (default "" assetId))
                    assets).

(** [getDocumentById(documentId?)]. *)
Definition getDocumentById (documentId : option string)
  : DataProg (option ExampleDocument) :=
  if negb (truthy documentId) then DRet None
  else
    documents ← dataAwait GetDocuments;
    DRet (List.find (fun document =>
                       String.eqb (doc_id document) (default "" documentId))
                    documents).

(* ===================================================================== *)
(** ** Further definitions for the statements *)
(* ===================================================================== *)

(** The update-operation fields the update path takes: the sixteen
    scalar tags and [reference]. *)
Definition updatableType (t : FieldType) : bool :=
  isScalarType t || match t with TReference => true | _ => false end.

(** The operations the loop of
    [convertUpdateOperationsToExampleDocumentFields] gets past. *)
Definition operationSupported (op : UpdateOperation) : bool :=
  match op with
  | OpSet field _ => updatableType (uof_type field)
  | OpUnset _ modelField => negb (isCompositeType (field_type modelField))
  | _ => false
  end.

(** The value a supported operation writes. *)
Definition operationValue (op : UpdateOperation) : JsValue :=
  match op with
  | OpSet field _ =>
      match uof_type field with
      | TReference => uof_refId field
      | _ => uof_value field
      end
  | _ => JsUndefined
  end.

(** What an operation the loop does not get past throws. *)
Definition operationError (op : UpdateOperation) : Exn :=
  match op with
  | OpSet field _ => unsupportedInUpdate (uof_type field)
  | OpUnset _ modelField => unsupportedInUpdate (field_type modelField)
  | _ => JsError ("'" +:+ opType op +:+ "' operation not implemented")
  end.

(** The model field a native field of this name is translated under. *)
Definition modelFieldOf (model : Model) (fieldName : string) : option Field :=
  match model_fields model with
  | None => None
  | Some fs => findField fs fieldName
  end.

(** A document with other native fields. *)
Definition withFields (d : ExampleDocument) (fields : list (string * JsValue))
  : ExampleDocument :=
  {| doc_id := doc_id d; doc_type := doc_type d; doc_status := doc_status d;
     doc_createdAt := doc_createdAt d; doc_updatedAt := doc_updatedAt d;
     doc_fields := fields |}.

(** Whether the model names a native field. *)
Definition namedByModel (model : Model) (entry : string * JsValue) : bool :=
  match modelFieldOf model (fst entry) with
  | Some _ => true
  | None => false
  end.

(** The native models of the example database: posts and their authors. *)
Definition exampleModels : list ExampleModel :=
  [ mkExampleModel "post"
      [ mkExampleField EString "title" [];
        mkExampleField EImage "coverImage" [];
        mkExampleField EReference "author" ["person"] ];
    mkExampleModel "person"
      [ mkExampleField EString "name" [];
        mkExampleField EImage "picture" [] ] ].

(** Modelled from the spec: a store client for the reading and writing
    methods, used in the examples only ([ExampleApiClient] is not among
    the sources).  It keeps the documents in a list: [createDocument]
    appends a draft with the given fields under a new id,
    [updateDocument] gives the document of that id the given fields and
    rejects an unknown id, [deleteDocument] removes by id and
    [publishDocuments] marks the listed documents as published. *)
Definition dataStore : DataHandler (list ExampleDocument) :=
  fun X c s =>
    match c in DataCall T return (T + string) * list ExampleDocument with
    | GetModels => (inl exampleModels, s)
    | GetDocuments => (inl s, s)
    | GetAssets => (inl [], s)
    | CreateDocument type fields =>
        let document :=
          {| doc_id := "doc-" +:+ decimal (length s); doc_type := type;
             doc_status := "draft"; doc_createdAt := ""; doc_updatedAt := "";
             doc_fields := map_to_list (properties fields) |} in
        (inl document, s ++ [document])
    | UpdateDocument documentId fields =>
        match List.find (fun d => String.eqb (doc_id d) documentId) s with
        | Some d =>
            let document :=
              withFields d (map_to_list
                              (properties fields
                                 ∪ list_to_map (doc_fields d))) in
            (inl document,
             map (fun d' => if String.eqb (doc_id d') documentId
                            then document else d') s)
        | None => (inr "document not found", s)
        end
    | DeleteDocument documentId =>
        (inl tt,
         List.filter (fun d => negb (String.eqb (doc_id d) documentId)) s)
    | PublishDocuments documentIds =>
        (inl tt,
         map (fun d =>
                if bool_decide (doc_id d ∈ documentIds)
                then {| doc_id := doc_id d; doc_type := doc_type d;
                        doc_status := "published";
                        doc_createdAt := doc_createdAt d;
                        doc_updatedAt := doc_updatedAt d;
                        doc_fields := doc_fields d |}
                else d) s)
    end.

(** The events of a batch by what the observer does with them. *)
Definition isDocumentEvent (event : ExampleEvent) : bool :=
  String.eqb (ev_name event) "document-created"
  || String.eqb (ev_name event) "document-updated".

Definition isDeletionEvent (event : ExampleEvent) : bool :=
  negb (isDocumentEvent event)
  && String.eqb (ev_name event) "document-deleted".

Definition isAssetEvent (event : ExampleEvent) : bool :=
  negb (isDocumentEvent event)
  && negb (String.eqb (ev_name event) "document-deleted")
  && String.eqb (ev_name event) "asset-created".

(* ===================================================================== *)
(** ** Loops and runs *)
(* ===================================================================== *)

Lemma foldM_app {A B} (step : A -> B -> result A) (xs ys : list B) (acc : A) :
  foldM step acc (xs ++ ys) = (acc' ← foldM step acc xs; foldM step acc' ys).
Proof.
  revert acc. induction xs as [|x xs IH]; intros acc; simpl; [done|].
  destruct (step acc x) as [acc'|e]; simpl; [apply IH | done].
Qed.

Lemma mapM_app {A B} (f : A -> result B) (xs ys : list A) :
  mapM f (xs ++ ys) =
  (xs' ← mapM f xs; ys' ← mapM f ys; Ok (xs' ++ ys')).
Proof.
  induction xs as [|x xs IH]; simpl.
  - destruct (mapM f ys); done.
  - destruct (f x) as [y|e]; simpl; [|done].
    rewrite IH. destruct (mapM f xs); simpl; [|done].
    destruct (mapM f ys); done.
Qed.

Lemma mapM_Forall2 {A B} (f : A -> result B) (xs : list A) (ys : list B) :
  mapM f xs = Ok ys -> Forall2 (fun x y => f x = Ok y) xs ys.
Proof.
  revert ys. induction xs as [|x xs IH]; intros ys; simpl.
  - intros [= <-]. constructor.
  - destruct (f x) as [y|e] eqn:Hx; simpl; [|done].
    destruct (mapM f xs) as [ys'|e]; simpl; [|done].
    intros [= <-]. constructor; [done | by apply IH].
Qed.

Lemma run_bind {S A B} (h : Handler S) (p : Prog A) (f : A -> Prog B)
    (s : S) (trace : list TraceEntry) :
  run h (p ≫= f) s trace =
  match run h p s trace with
  | (Ok a, s', trace') => run h (f a) s' trace'
  | (Thrown e, s', trace') => (Thrown e, s', trace')
  end.
Proof.
  revert s trace.
  induction p as [a|e|message k IH|X c k IH]; intros s trace; simpl;
    [done | done | apply IH |].
  destruct (h X c s) as [[x|reason] s']; [apply IH | done].
Qed.

(** [xs.map(f)] keeps the length, so [convert([x])[0]] is there whenever
    the call returns. *)
Lemma convert_single_document (modelMap : gmap string Model)
    (manageUrl : string) (document : ExampleDocument) (out : list Document) :
  convertExampleDocumentsToStackbitDocuments [document] modelMap manageUrl
    = Ok out ->
  exists d, out = [d]
            /\ convertExampleDocument modelMap manageUrl document = Ok d.
Proof.
  unfold convertExampleDocumentsToStackbitDocuments. simpl.
  destruct (convertExampleDocument modelMap manageUrl document) as [d|e];
    simpl; [|done].
  intros [= <-]. eauto.
Qed.

Lemma convert_single_asset (manageUrl siteLocalhost : string)
    (asset : ExampleAsset) :
  convertExampleAssetToStackbitAssets [asset] manageUrl siteLocalhost
  = [convertExampleAsset manageUrl siteLocalhost asset].
Proof. reflexivity. Qed.

(** The instance of the examples is the one [stackbit.config.ts] builds
    (the database path left out), after [init] in local development. *)
Example exampleSource_initialized :
  (this ← new_ExampleContentSource
            {| cso_projectId := "example"; cso_databaseFilePath := None;
               cso_siteLocalhost := None |};
   Ok (run storeClient
         (init this {| io_localDev := true; io_webhookUrl := None |})
         emptyStore []))
  = Ok (Ok exampleSource, emptyStore,
        [Logged "initialized ExampleContentSource"]).
Proof. reflexivity. Qed.

(* ===================================================================== *)
(** ** Document translation *)
(* ===================================================================== *)

Section DocumentTranslation.
Context (modelMap : gmap string Model) (manageUrl : string).

(** A document without native fields never reads its model. *)
Lemma convert_document_no_fields (d : ExampleDocument) :
  doc_fields d = [] ->
  exists d', convertExampleDocument modelMap manageUrl d = Ok d'
             /\ d_fields d' = ∅.
Proof.
  intros Hf. unfold convertExampleDocument. rewrite Hf. simpl. eauto.
Qed.

(** With its model in the map, a field the model does not name is
    skipped. *)
Lemma reduceField_unmatched (model : Model) (fs : list Field)
    (fields : gmap string DocumentField) (name : string) (v : JsValue) :
  model_fields model = Some fs -> findField fs name = None ->
  reduceField (Some model) fields (name, v) = Ok fields.
Proof. intros Hm Hf. simpl. by rewrite Hm, Hf. Qed.

Lemma modelMapGet_own (key : string) (model : Model) :
  modelMap !! key = Some model -> modelMapGet modelMap key = Some model.
Proof. intros H. unfold modelMapGet. by rewrite H. Qed.

Lemma modelMapGet_undefined (key : string) :
  modelMap !! key = None -> inheritedMember key = false ->
  modelMapGet modelMap key = None.
Proof. intros H Hi. unfold modelMapGet. by rewrite H, Hi. Qed.

Lemma modelMapGet_inherited (key : string) :
  modelMap !! key = None -> inheritedMember key = true ->
  modelMapGet modelMap key = Some inheritedMemberAsModel.
Proof. intros H Hi. unfold modelMapGet. by rewrite H, Hi. Qed.

Lemma convertExampleDocument_thrown (d : ExampleDocument) (e : Exn) :
  foldM (reduceField (modelMapGet modelMap (doc_type d))) ∅ (doc_fields d)
    = Thrown e ->
  convertExampleDocument modelMap manageUrl d = Thrown e.
Proof. intros H. unfold convertExampleDocument. by rewrite H. Qed.

Lemma foldM_reduceField_inherited (entries : list (string * JsValue))
    (fields : gmap string DocumentField) :
  foldM (reduceField (Some inheritedMemberAsModel)) fields entries = Ok fields.
Proof.
  induction entries as [|[name v] entries IH]; simpl; [done | exact IH].
Qed.

(** A type that names a member every object inherits ([constructor],
    [toString], [__proto__], ...) finds that member in place of a model:
    the document is translated, with no fields. *)
Lemma convert_document_inherited_member (d : ExampleDocument) :
  modelMap !! doc_type d = None -> inheritedMember (doc_type d) = true ->
  exists d', convertExampleDocument modelMap manageUrl d = Ok d'
             /\ d_fields d' = ∅.
Proof.
  intros Hm Hi. unfold convertExampleDocument.
  rewrite (modelMapGet_inherited _ Hm Hi), foldM_reduceField_inherited.
  simpl. eauto.
Qed.

Lemma reduceField_no_model (fields : gmap string DocumentField)
    (entry : string * JsValue) :
  reduceField None fields entry = Thrown (JsTypeError "fields").
Proof. by destruct entry. Qed.

(** C1, on the code: a document whose type has no entry in the model map
    (and is not the name of a member every object inherits, for which
    the lookup is not [undefined]) and which has at least one native field
    is not translated.  The first field makes the callback read
    [model.fields] on [undefined], and the whole call ends with that
    [TypeError]. *)
Theorem convert_document_without_model_throws (d : ExampleDocument) :
  modelMap !! doc_type d = None -> inheritedMember (doc_type d) = false ->
  doc_fields d <> [] ->
  convertExampleDocumentsToStackbitDocuments [d] modelMap manageUrl
  = Thrown (JsTypeError "fields").
Proof.
  intros Hm Hi Hf. unfold convertExampleDocumentsToStackbitDocuments.
  simpl. unfold convertExampleDocument.
  rewrite (modelMapGet_undefined _ Hm Hi).
  destruct (doc_fields d) as [|entry rest]; [done|].
  simpl. by rewrite reduceField_no_model.
Qed.


End DocumentTranslation.

Lemma convert_document_without_model_throws_witness :
  convertExampleDocumentsToStackbitDocuments [postDocument] ∅ "https://example.com/project/example"
  = Thrown (JsTypeError "fields").
Proof.
  apply (convert_document_without_model_throws ∅ _ postDocument).
  - reflexivity.
  - reflexivity.
  - simpl. discriminate.
Defined.


(* ===================================================================== *)
(** ** Field codec *)
(* ===================================================================== *)

Lemma convertFieldValue_scalar (t : FieldType) (v : JsValue) :
  isScalarType t = true -> convertFieldValue t v = Ok (DocumentValueField t v).
Proof. by destruct t. Qed.

Lemma denormalize_scalar (u : UpdateOperationField) :
  isScalarType (uof_type u) = true ->
  convertUpdateOperationFieldToExampleDocumentField u = Ok (uof_value u).
Proof.
  unfold convertUpdateOperationFieldToExampleDocumentField.
  by destruct (uof_type u).
Qed.

(** C4: under a scalar tag a value normalized and then denormalized comes
    back as it was, and so does a normalized scalar field denormalized and
    then normalized; in both directions the value itself is what is
    passed on. *)
Theorem scalar_round_trip (t : FieldType) (v : JsValue) :
  isScalarType t = true ->
  (f ← convertFieldValue t v;
   convertUpdateOperationFieldToExampleDocumentField (asUpdateOperationField f))
  = Ok v
  /\ (v' ← convertUpdateOperationFieldToExampleDocumentField
             (asUpdateOperationField (DocumentValueField t v));
      convertFieldValue t v')
     = Ok (DocumentValueField t v)
  /\ convertFieldValue t v = Ok (DocumentValueField t v)
  /\ (forall u, uof_type u = t ->
        convertUpdateOperationFieldToExampleDocumentField u = Ok (uof_value u)).
Proof.
  intros Ht. repeat split.
  - rewrite (convertFieldValue_scalar _ _ Ht). simpl.
    by rewrite denormalize_scalar.
  - rewrite denormalize_scalar by done. simpl.
    by apply convertFieldValue_scalar.
  - by apply convertFieldValue_scalar.
  - intros u <-. by apply denormalize_scalar.
Qed.

Lemma scalar_round_trip_witness :
  (f ← convertFieldValue TMarkdown (JsString "# Hi");
   convertUpdateOperationFieldToExampleDocumentField (asUpdateOperationField f))
  = Ok (JsString "# Hi")
  /\ (v' ← convertUpdateOperationFieldToExampleDocumentField
             (asUpdateOperationField (DocumentValueField TMarkdown (JsString "# Hi")));
      convertFieldValue TMarkdown v')
     = Ok (DocumentValueField TMarkdown (JsString "# Hi"))
  /\ convertFieldValue TMarkdown (JsString "# Hi")
     = Ok (DocumentValueField TMarkdown (JsString "# Hi"))
  /\ (forall u, uof_type u = TMarkdown ->
        convertUpdateOperationFieldToExampleDocumentField u = Ok (uof_value u)).
Proof. apply (scalar_round_trip TMarkdown (JsString "# Hi")). reflexivity. Defined.

(** C2 as stated does not hold: the image field above is not denormalized
    to the id of the asset it refers to. *)
Lemma image_update_not_denormalized :
  convertUpdateOperationFieldToExampleDocumentField imageUpdate
  <> Ok (uof_refId imageUpdate).
Proof. discriminate. Qed.

(** C2, amended: an update-operation field tagged [image] is rejected,
    with an error that names the tag; the target id of a reference is the
    native value only when the field is tagged [reference]: the same
    field under the tag [reference] gives its target id, and under every
    other tag the target id has no part in the result. *)
Theorem image_update_rejected (u : UpdateOperationField) :
  uof_type u = TImage ->
  convertUpdateOperationFieldToExampleDocumentField u
  = Thrown (JsError "updating field of type image not implemented")
  /\ convertUpdateOperationFieldToExampleDocumentField
       {| uof_type := TReference; uof_value := uof_value u;
          uof_refType := uof_refType u; uof_refId := uof_refId u |}
     = Ok (uof_refId u)
  /\ (forall w refId,
        uof_type w <> TReference ->
        convertUpdateOperationFieldToExampleDocumentField
          {| uof_type := uof_type w; uof_value := uof_value w;
             uof_refType := uof_refType w; uof_refId := refId |}
        = convertUpdateOperationFieldToExampleDocumentField w).
Proof.
  intros Ht. unfold convertUpdateOperationFieldToExampleDocumentField.
  rewrite Ht. split; [done|]. split; [done|].
  intros w refId Hw. simpl. by destruct (uof_type w).
Qed.

Lemma image_update_rejected_witness :
  convertUpdateOperationFieldToExampleDocumentField imageUpdate
  = Thrown (JsError "updating field of type image not implemented")
  /\ convertUpdateOperationFieldToExampleDocumentField
       {| uof_type := TReference; uof_value := uof_value imageUpdate;
          uof_refType := uof_refType imageUpdate;
          uof_refId := uof_refId imageUpdate |}
     = Ok (JsString "asset-1")
  /\ (forall w refId,
        uof_type w <> TReference ->
        convertUpdateOperationFieldToExampleDocumentField
          {| uof_type := uof_type w; uof_value := uof_value w;
             uof_refType := uof_refType w; uof_refId := refId |}
        = convertUpdateOperationFieldToExampleDocumentField w).
Proof. apply (image_update_rejected imageUpdate). reflexivity. Defined.

(** The error names the tag: its message has the tag's name in it. *)
Lemma unsupported_names_tag (t : FieldType) :
  exists pre post,
    unsupportedInDocument t = JsError (pre +:+ fieldTypeName t +:+ post)
    /\ unsupportedInUpdate t
       = JsError (("updating " +:+ pre) +:+ fieldTypeName t +:+ post).
Proof. exists "field of type ", " not implemented". done. Qed.

Lemma convertFieldValue_composite (t : FieldType) (v : JsValue) :
  isCompositeType t = true ->
  convertFieldValue t v = Thrown (unsupportedInDocument t).
Proof. by destruct t. Qed.

(** C7: under each of the tags object, model, cross-reference and list
    both directions fail with the error naming the tag.  Normalizing a
    value fails; translating documents fails at the first native field
    whose model field has such a tag (the documents and fields before it
    having been translated); denormalizing an update-operation field
    fails. *)
Theorem composite_unsupported (t : FieldType) :
  isCompositeType t = true ->
  (forall v, convertFieldValue t v = Thrown (unsupportedInDocument t))
  /\ (forall modelMap manageUrl before d after model fs mf pre name v post
             done acc,
        convertExampleDocumentsToStackbitDocuments before modelMap manageUrl
          = Ok done ->
        modelMap !! doc_type d = Some model ->
        model_fields model = Some fs ->
        doc_fields d = pre ++ (name, v) :: post ->
        foldM (reduceField (Some model)) ∅ pre = Ok acc ->
        findField fs name = Some mf ->
        field_type mf = t ->
        convertExampleDocumentsToStackbitDocuments
          (before ++ d :: after) modelMap manageUrl
        = Thrown (unsupportedInDocument t))
  /\ (forall u, uof_type u = t ->
        convertUpdateOperationFieldToExampleDocumentField u
        = Thrown (unsupportedInUpdate t)).
Proof.
  intros Ht. split; [|split].
  - intros v. by apply convertFieldValue_composite.
  - intros modelMap manageUrl before d after model fs mf pre name v post
      done' acc Hb Hm Hfs Hd Hpre Hfind Hty.
    unfold convertExampleDocumentsToStackbitDocuments in *.
    rewrite mapM_app, Hb. simpl.
    rewrite (convertExampleDocument_thrown _ _ _ (unsupportedInDocument t));
      [done|].
    rewrite (modelMapGet_own _ _ _ Hm), Hd, foldM_app, Hpre. simpl.
    rewrite Hfs, Hfind, Hty.
    by rewrite (convertFieldValue_composite _ _ Ht).
  - intros u <-. unfold convertUpdateOperationFieldToExampleDocumentField.
    by destruct (uof_type u).
Qed.

Lemma composite_unsupported_witness :
  convertFieldValue TList (JsArray [])
  = Thrown (JsError "field of type list not implemented")
  /\ convertExampleDocumentsToStackbitDocuments
       [postDocument; pageDocument]
       (<["page" := pageModel]> {["post" := postModel]})
       "https://example.com/project/example"
     = Thrown (JsError "field of type list not implemented")
  /\ convertUpdateOperationFieldToExampleDocumentField
       {| uof_type := TList; uof_value := JsUndefined;
          uof_refType := JsUndefined; uof_refId := JsUndefined |}
     = Thrown (JsError "updating field of type list not implemented").
Proof.
  destruct (composite_unsupported TList eq_refl) as (Hv & Hd & Hu).
  split; [apply Hv | split; [|by apply Hu]].
  eapply (Hd _ _ [postDocument] pageDocument [] pageModel _ _
            [("title", JsString "Home")] "sections" (JsArray []) []);
    reflexivity.
Defined.

(* ===================================================================== *)
(** ** Update applier *)
(* ===================================================================== *)



Lemma assign_other (key key' : string) (value : JsValue) (o : NativeFields) :
  key <> key' -> properties (assign key value o) !! key' = properties o !! key'.
Proof.
  intros Hne. unfold assign.
  destruct (String.eqb key "__proto__" && protoSetterReached o).
  - by destruct value.
  - simpl. by rewrite lookup_insert_ne.
Qed.

Lemma assign_same (key : string) (value : JsValue) (o : NativeFields) :
  key <> "__proto__" -> properties (assign key value o) !! key = Some value.
Proof.
  intros Hne. unfold assign. apply String.eqb_neq in Hne. rewrite Hne.
  simpl. by rewrite lookup_insert_eq.
Qed.

(** An operation that succeeds writes the key of its own path only. *)
Lemma applyOperation_other_key (fields fields' : NativeFields)
    (op : UpdateOperation) (key : string) :
  applyOperation fields op = Ok fields' ->
  propertyKey (opFieldPath op) <> key ->
  properties fields' !! key = properties fields !! key.
Proof.
  destruct op as [f p|p mf|p i|p i|p o]; simpl; try done.
  - destruct (convertUpdateOperationFieldToExampleDocumentField f);
      simpl; [|done].
    intros [= <-] Hk. by apply assign_other.
  - destruct (field_type mf); try done;
      intros [= <-] Hk; by apply assign_other.
Qed.

Lemma applyOperations_other_keys (ops : list UpdateOperation)
    (fields out : NativeFields) (key : string) :
  foldM applyOperation fields ops = Ok out ->
  Forall (fun op => propertyKey (opFieldPath op) <> key) ops ->
  properties out !! key = properties fields !! key.
Proof.
  revert fields. induction ops as [|op ops IH]; intros fields; simpl.
  - by intros [= <-].
  - destruct (applyOperation fields op) as [fields'|e] eqn:Hop;
      simpl; [|done].
    intros Hrest Hall. inversion Hall as [|? ? Hk Hks]; subst.
    rewrite (IH _ Hrest Hks). by eapply applyOperation_other_key.
Qed.




(* ===================================================================== *)
(** ** Capability probe *)
(* ===================================================================== *)

(** C9: [hasAccess] answers [{ hasConnection: true, hasPermissions: true }]
    whatever the instance and the user context are: with or without a
    user context, in local development or not, before or after [init]. *)
Theorem hasAccess_always_granted (this : ExampleContentSource)
    (userContext : option unit) :
  hasAccess this userContext
  = {| hasConnection := true; hasPermissions := true |}.
Proof. unfold hasAccess. by destruct (default false (localDev this)). Qed.

(* ===================================================================== *)
(** ** Asset upload *)
(* ===================================================================== *)

Lemma truthy_false (s : option string) :
  truthy s = false <-> s = None \/ s = Some "".
Proof.
  destruct s as [s|]; simpl.
  - rewrite negb_false_iff, String.eqb_eq. split.
    + intros ->. by right.
    + by intros [|[= ->]].
  - split; [by left | done].
Qed.

(** C8: on an initialized instance, against any store, [uploadAsset] fails
    with the error "uploading assets from base64 is not supported" exactly
    when no source URL is given (the [url] is undefined or the empty
    string), whatever [base64] holds, and then the store is not called.
    With a URL it awaits the store's [uploadAsset] with that URL, the file
    name as title and 100 by 100, and returns the store's asset,
    normalized: an asset of the same id and timestamps, published, with
    the manage URL [manageUrl/assets/id], the title as a string field, the
    file URL [siteLocalhost] followed by the asset's URL, and the asset's
    dimensions.  A rejection of the store is passed on. *)
Theorem uploadAsset_requires_url {S} (h : Handler S)
    (this : ExampleContentSource) (options : UploadAssetOptions)
    (s : S) (trace : list TraceEntry) :
  is_Some (logger this) -> is_Some (apiClient this) ->
  let '(r, s', trace') := run h (uploadAsset this options) s trace in
  (r = Thrown (JsError "uploading assets from base64 is not supported")
   <-> ua_url options = None \/ ua_url options = Some "")
  /\ (ua_url options = None \/ ua_url options = Some "" ->
      s' = s /\ trace' = trace ++ [Logged "uploadAsset"])
  /\ (forall url, ua_url options = Some url -> url <> "" ->
      trace' = trace ++ [Logged "uploadAsset";
                         Called (UploadAsset url (ua_fileName options) 100 100)]
      /\ match h _ (UploadAsset url (ua_fileName options) 100 100) s with
         | (inl asset, s1) =>
             r = Ok {| a_type := "asset";
                       a_id := asset_id asset;
                       a_createdAt := asset_createdAt asset;
                       a_updatedAt := asset_updatedAt asset;
                       a_status := "published";
                       a_manageUrl :=
                         manageUrl this +:+ "/assets/" +:+ asset_id asset;
                       a_fields :=
                         {| af_title :=
                              DocumentValueField TString
                                (JsString (asset_title asset));
                            af_file_url :=
                              siteLocalhost this +:+ asset_url asset;
                            af_file_width := asset_width asset;
                            af_file_height := asset_height asset |} |}
             /\ s' = s1
         | (inr reason, s1) => r = Thrown (StoreRejected reason) /\ s' = s1
         end).
Proof.
  intros [l Hl] [c Hc]. unfold uploadAsset, debug. rewrite Hl, Hc. simpl.
  destruct (truthy (ua_url options)) eqn:Hurl; simpl.
  - assert (Hgiven : ~ (ua_url options = None \/ ua_url options = Some "")).
    { rewrite <- truthy_false. by rewrite Hurl. }
    destruct (ua_url options) as [url|] eqn:Hu; [|done]. simpl.
    destruct (h _ (UploadAsset url (ua_fileName options) 100 100) s)
      as [[asset|reason] s1] eqn:Hh; simpl.
    + split; [split; [done | by intros ?] |].
      split; [by intros ? |].
      intros url' [= <-] _. rewrite Hh, <- app_assoc. done.
    + split; [split; [done | by intros ?] |].
      split; [by intros ? |].
      intros url' [= <-] _. rewrite Hh, <- app_assoc. done.
  - apply truthy_false in Hurl.
    split; [done|]. split; [done|].
    intros url Hsome Hne. destruct Hurl as [Hn|He]; congruence.
Qed.

Lemma uploadAsset_requires_url_witness :
  let options :=
    {| ua_url := Some "https://images.example.com/cover.png";
       ua_base64 := Some "aGVsbG8="; ua_fileName := "cover.png";
       ua_mimeType := "image/png"; ua_locale := None |} in
  let '(r, s', trace') :=
    run storeClient (uploadAsset exampleSource options) emptyStore [] in
  (r = Thrown (JsError "uploading assets from base64 is not supported")
   <-> ua_url options = None \/ ua_url options = Some "")
  /\ (ua_url options = None \/ ua_url options = Some "" ->
      s' = emptyStore /\ trace' = [] ++ [Logged "uploadAsset"])
  /\ (forall url, ua_url options = Some url -> url <> "" ->
      trace' = [] ++ [Logged "uploadAsset";
                      Called (UploadAsset url (ua_fileName options) 100 100)]
      /\ match storeClient _ (UploadAsset url (ua_fileName options) 100 100)
                 emptyStore with
         | (inl asset, s1) =>
             r = Ok {| a_type := "asset";
                       a_id := asset_id asset;
                       a_createdAt := asset_createdAt asset;
                       a_updatedAt := asset_updatedAt asset;
                       a_status := "published";
                       a_manageUrl :=
                         manageUrl exampleSource +:+ "/assets/"
                         +:+ asset_id asset;
                       a_fields :=
                         {| af_title :=
                              DocumentValueField TString
                                (JsString (asset_title asset));
                            af_file_url :=
                              siteLocalhost exampleSource +:+ asset_url asset;
                            af_file_width := asset_width asset;
                            af_file_height := asset_height asset |} |}
             /\ s' = s1
         | (inr reason, s1) => r = Thrown (StoreRejected reason) /\ s' = s1
         end).
Proof.
  intros options.
  apply (uploadAsset_requires_url storeClient exampleSource options
           emptyStore []); simpl; eauto.
Defined.

(** Without a URL the byte payload does not help. *)
Example uploadAsset_base64_only :
  run storeClient
    (uploadAsset exampleSource
       {| ua_url := None; ua_base64 := Some "aGVsbG8=";
          ua_fileName := "cover.png"; ua_mimeType := "image/png";
          ua_locale := None |})
    emptyStore []
  = (Thrown (JsError "uploading assets from base64 is not supported"),
     emptyStore, [Logged "uploadAsset"]).
Proof. reflexivity. Qed.

(* ===================================================================== *)
(** ** Change observer: the batch *)
(* ===================================================================== *)

Section Batch.
Context (this : ExampleContentSource) (options : WatchOptions).

Lemma classifyEvent_deletedAssetIds (cc cc' : ContentChangeEvent)
    (event : ExampleEvent) :
  classifyEvent this options cc event = Ok cc' ->
  deletedAssetIds cc' = deletedAssetIds cc.
Proof.
  unfold classifyEvent.
  destruct (_ || _).
  - destruct (ev_document event) as [document|]; [|done].
    destruct (convertExampleDocumentsToStackbitDocuments _ _ _)
      as [[|d ds]|e]; simpl; [| |done]; by intros [= <-].
  - destruct (String.eqb (ev_name event) "document-deleted");
      [by intros [= <-]|].
    destruct (String.eqb (ev_name event) "asset-created");
      [|by intros [= <-]].
    destruct (ev_asset event) as [asset|]; [|done].
    simpl. by intros [= <-].
Qed.

Lemma classifyEvent_unrecognized (cc : ContentChangeEvent)
    (event : ExampleEvent) :
  recognizedEvent event = false -> classifyEvent this options cc event = Ok cc.
Proof.
  unfold recognizedEvent, classifyEvent. intros H.
  apply orb_false_elim in H as [H Hasset].
  apply orb_false_elim in H as [H Hdeleted].
  by rewrite H, Hdeleted, Hasset.
Qed.

Lemma foldM_classify_deletedAssetIds (events : list ExampleEvent)
    (cc batch : ContentChangeEvent) :
  foldM (classifyEvent this options) cc events = Ok batch ->
  deletedAssetIds batch = deletedAssetIds cc.
Proof.
  revert cc. induction events as [|event events IH]; intros cc; simpl.
  - by intros [= <-].
  - destruct (classifyEvent this options cc event) as [cc'|e] eqn:Hc;
      simpl; [|done].
    intros H. rewrite (IH _ H). by eapply classifyEvent_deletedAssetIds.
Qed.

Lemma foldM_classify_filter (events : list ExampleEvent)
    (cc : ContentChangeEvent) :
  foldM (classifyEvent this options) cc (List.filter recognizedEvent events)
  = foldM (classifyEvent this options) cc events.
Proof.
  revert cc. induction events as [|event events IH]; intros cc; simpl; [done|].
  destruct (recognizedEvent event) eqn:Hr; simpl.
  - destruct (classifyEvent this options cc event); simpl; [apply IH | done].
  - rewrite (classifyEvent_unrecognized _ _ Hr). simpl. apply IH.
Qed.

(** C10: every batch the observer callback assembles has an empty
    [deletedAssetIds]: no event, of whatever kind, adds to it.  An event
    whose name is none of document-created, document-updated,
    document-deleted and asset-created leaves the batch as it is, so the
    batch for a list of events is the batch for the events of these four
    kinds among them. *)
Theorem deletedAssetIds_always_empty (events : list ExampleEvent) :
  (forall batch,
     contentChangeCallback this options events = Ok batch ->
     deletedAssetIds batch = [])
  /\ (forall cc cc' event,
        classifyEvent this options cc event = Ok cc' ->
        deletedAssetIds cc' = deletedAssetIds cc)
  /\ (forall cc event,
        ev_name event <> "document-created" ->
        ev_name event <> "document-updated" ->
        ev_name event <> "document-deleted" ->
        ev_name event <> "asset-created" ->
        classifyEvent this options cc event = Ok cc)
  /\ contentChangeCallback this options (List.filter recognizedEvent events)
     = contentChangeCallback this options events.
Proof.
  unfold contentChangeCallback. repeat split.
  - intros batch H. by rewrite (foldM_classify_deletedAssetIds _ _ _ H).
  - apply classifyEvent_deletedAssetIds.
  - intros cc event H1 H2 H3 H4. apply classifyEvent_unrecognized.
    unfold recognizedEvent.
    apply String.eqb_neq in H1, H2, H3, H4. by rewrite H1, H2, H3, H4.
  - apply foldM_classify_filter.
Qed.

End Batch.

(** A batch with one event of each kind the store of the example sends,
    and one of a kind the observer does not know. *)
Example batch_of_five :
  contentChangeCallback exampleSource
    {| getModelMap := fun _ => {["post" := postModel]} |}
    [ mkExampleEvent "document-created" (Some postDocument) JsUndefined None;
      mkExampleEvent "asset-deleted" None JsUndefined None;
      mkExampleEvent "document-deleted" None (JsString "p0") None;
      mkExampleEvent "asset-created" None JsUndefined
        (Some (mkExampleAsset "a1" "2023-01-01" "2023-01-01" "Cover"
                 "/images/cover.png" 640 480)) ]
  = Ok {| documents :=
            [{| d_type := "document"; d_id := "p1"; d_modelName := "post";
                d_status := "added";
                d_manageUrl := "https://example.com/project/example/document/p1";
                d_createdAt := "2023-01-01"; d_updatedAt := "2023-01-02";
                d_fields :=
                  <["author" := DocumentReferenceField "document" (JsString "a1")]>
                    (<["title" := DocumentValueField TString (JsString "Hi")]> ∅) |}];
          assets :=
            [convertExampleAsset "https://example.com/project/example"
               "http://localhost:3000"
               (mkExampleAsset "a1" "2023-01-01" "2023-01-01" "Cover"
                  "/images/cover.png" 640 480)];
          deletedDocumentIds := [JsString "p0"];
          deletedAssetIds := [] |}.
Proof. reflexivity. Qed.

Lemma deletedAssetIds_always_empty_witness :
  exists batch,
    contentChangeCallback exampleSource noModels
      [ mkExampleEvent "document-deleted" None (JsString "p0") None;
        mkExampleEvent "asset-deleted" None (JsString "a0") None ]
    = Ok batch
    /\ deletedDocumentIds batch = [JsString "p0"]
    /\ deletedAssetIds batch = [].
Proof.
  destruct (deletedAssetIds_always_empty exampleSource noModels
              [ mkExampleEvent "document-deleted" None (JsString "p0") None;
                mkExampleEvent "asset-deleted" None (JsString "a0") None ])
    as (Hempty & _).
  eexists. split; [reflexivity|]. split; [reflexivity|].
  apply Hempty. reflexivity.
Defined.

(* ===================================================================== *)
(** ** Change observer: start and stop *)
(* ===================================================================== *)

Section Watching.
Context {S : Type} (h : Handler S).

(** With a handle stored, [stopWatchingContentUpdates] calls the store. *)
Lemma run_stopWatching (this : ExampleContentSource) (id : string)
    (s : S) (trace : list TraceEntry) :
  observerId this = Some id -> id <> "" -> is_Some (apiClient this) ->
  run h (stopWatchingContentUpdates this) s trace
  = match h _ (StopObservingContentChanges id) s with
    | (inl _, s') =>
        (Ok tt, s', trace ++ [Called (StopObservingContentChanges id)])
    | (inr reason, s') =>
        (Thrown (StoreRejected reason), s',
         trace ++ [Called (StopObservingContentChanges id)])
    end.
Proof.
  intros Hid Hne [c Hc]. unfold stopWatchingContentUpdates.
  rewrite Hid, Hc. simpl.
  apply String.eqb_neq in Hne. rewrite Hne. simpl.
  by destruct (h _ (StopObservingContentChanges id) s) as [[[]|reason] s'].
Qed.

(** Never started: [stopWatchingContentUpdates] does nothing. *)
Lemma run_stopWatching_idle (this : ExampleContentSource)
    (s : S) (trace : list TraceEntry) :
  observerId this = None ->
  run h (stopWatchingContentUpdates this) s trace = (Ok tt, s, trace).
Proof. intros Hid. unfold stopWatchingContentUpdates. by rewrite Hid. Qed.

(** C3, on the code: [stopWatchingContentUpdates] does not clear
    [this.observerId], so once a handle is stored every call unsubscribes
    it again.  Two calls in a row leave [this] as it was and make two
    [stopObservingContentChanges] calls with the same handle. *)
Theorem stop_twice_unsubscribes_twice (this : ExampleContentSource)
    (id : string) (s : S) (trace : list TraceEntry) :
  observerId this = Some id -> id <> "" -> is_Some (apiClient this) ->
  let '(this', _, trace') :=
    watchCalls h (this, s, trace) [HostStop; HostStop] in
  this' = this
  /\ trace' = trace ++ [Called (StopObservingContentChanges id);
                        Called (StopObservingContentChanges id)].
Proof.
  intros Hid Hne Hc. unfold watchCalls, fold_left, watchStep.
  rewrite (run_stopWatching _ _ _ _ Hid Hne Hc).
  destruct (h _ (StopObservingContentChanges id) s) as [[x|reason] s1];
    rewrite (run_stopWatching _ _ _ _ Hid Hne Hc);
    destruct (h _ (StopObservingContentChanges id) s1) as [[y|reason'] s2];
    by rewrite <- app_assoc.
Qed.

(** While a handle is stored, [startWatchingContentUpdates] calls
    [stopObservingContentChanges] for it before it subscribes anew. *)
Lemma start_stops_first (this : ExampleContentSource) (options : WatchOptions)
    (id : string) (s : S) (trace : list TraceEntry) :
  observerId this = Some id -> id <> "" -> is_Some (apiClient this) ->
  exists rest,
    (run h (startWatchingContentUpdates this options) s trace).2
    = trace ++ Called (StopObservingContentChanges id) :: rest.
Proof.
  intros Hid Hne [c Hc]. unfold startWatchingContentUpdates.
  rewrite run_bind.
  assert (Ht : truthy (observerId this) = true).
  { rewrite Hid. simpl. apply String.eqb_neq in Hne. by rewrite Hne. }
  rewrite Ht, (run_stopWatching _ _ _ _ Hid Hne (ex_intro _ c Hc)).
  destruct (h _ (StopObservingContentChanges id) s) as [[x|reason] s1].
  - rewrite Hc. simpl.
    destruct (h _ (StartObservingContentChanges _) s1) as [[id'|reason] s2];
      simpl; rewrite <- app_assoc; eauto.
  - exists []. done.
Qed.

End Watching.

Lemma stop_twice_unsubscribes_twice_witness :
  let '(this', _, trace') :=
    watchCalls storeClient
      (set_observerId exampleSource (Some "observer-0"), emptyStore, [])
      [HostStop; HostStop] in
  this' = set_observerId exampleSource (Some "observer-0")
  /\ trace' = [] ++ [Called (StopObservingContentChanges "observer-0");
                     Called (StopObservingContentChanges "observer-0")].
Proof.
  apply (stop_twice_unsubscribes_twice storeClient
           (set_observerId exampleSource (Some "observer-0")) "observer-0"
           emptyStore []); simpl; eauto.
Defined.

(** From a fresh instance: start, stop, stop.  The second stop reaches the
    store like the first. *)
Example start_stop_stop :
  map isStopCall
    (watchCalls storeClient (exampleSource, emptyStore, [])
       [HostStart noModels; HostStop; HostStop]).2
  = [false; true; true]
  /\ observerId
       (watchCalls storeClient (exampleSource, emptyStore, [])
          [HostStart noModels; HostStop; HostStop]).1.1
     = Some "observer-0".
Proof. split; reflexivity. Qed.

Lemma observerName_truthy (n : nat) : truthy (Some (observerName n)) = true.
Proof. reflexivity. Qed.

Lemma observerName_nonempty (n : nat) : observerName n <> "".
Proof. discriminate. Qed.

Lemma stop_in_store (this : ExampleContentSource) (s : Store)
    (trace : list TraceEntry) :
  watchInvariant this s ->
  truthy (observerId this) = true -> is_Some (apiClient this) ->
  exists s' trace',
    run storeClient (stopWatchingContentUpdates this) s trace
    = (Ok tt, s', trace')
    /\ st_observers s' = [].
Proof.
  intros Hinv Ht [c Hc].
  destruct (observerId this) as [id|] eqn:Hid; [|done].
  assert (Hne : id <> "").
  { simpl in Ht. apply negb_true_iff in Ht. by apply String.eqb_neq. }
  rewrite (run_stopWatching storeClient this id s trace Hid Hne
             (ex_intro _ c Hc)).
  simpl. do 2 eexists. split; [done|]. simpl.
  destruct Hinv as [->|(id' & cb & -> & Hid' & _)]; [done|].
  rewrite Hid in Hid'. injection Hid' as <-.
  rewrite filter_cons_False; [done|]. simpl. by intros H; apply H.
Qed.

Lemma watchStep_invariant (this : ExampleContentSource) (s : Store)
    (trace : list TraceEntry) (call : WatchCall) :
  watchInvariant this s ->
  watchInvariant (watchStep storeClient (this, s, trace) call).1.1
                 (watchStep storeClient (this, s, trace) call).1.2.
Proof.
  intros Hinv. destruct call as [options|]; unfold watchStep.
  - unfold startWatchingContentUpdates. rewrite run_bind.
    destruct (apiClient this) as [c|] eqn:Hc.
    + assert (Hstopped : exists s1 trace1,
                run storeClient
                  (if truthy (observerId this)
                   then stopWatchingContentUpdates this else Ret tt) s trace
                = (Ok tt, s1, trace1) /\ st_observers s1 = []).
      { destruct (truthy (observerId this)) eqn:Ht.
        - apply stop_in_store; [done | done | by rewrite Hc].
        - exists s, trace. split; [done|].
          destruct Hinv as [H|(id & cb & _ & Hid & Hne)]; [done|].
          rewrite Hid in Ht. simpl in Ht.
          apply negb_false_iff, String.eqb_eq in Ht. done. }
      destruct Hstopped as (s1 & trace1 & -> & Hs1).
      simpl. right. rewrite Hs1. simpl.
      do 2 eexists. split; [done|]. split; [done|].
      apply observerName_nonempty.
    + destruct (truthy (observerId this)) eqn:Ht.
      * unfold stopWatchingContentUpdates. rewrite Ht, Hc. simpl. done.
      * simpl. done.
  - destruct (truthy (observerId this)) eqn:Ht.
    + destruct (apiClient this) as [c|] eqn:Hc.
      * destruct (stop_in_store this s trace Hinv Ht) as (s' & trace' & -> & Hs');
          [by rewrite Hc|].
        simpl. by left.
      * unfold stopWatchingContentUpdates. rewrite Ht, Hc. simpl. done.
    + unfold stopWatchingContentUpdates. rewrite Ht. simpl. done.
Qed.

(** In the store above, whatever sequence of
    [startWatchingContentUpdates] and [stopWatchingContentUpdates] calls
    the host makes on a new instance, the store never has two live
    subscriptions. *)
Theorem at_most_one_subscription (this : ExampleContentSource)
    (calls : list WatchCall) :
  observerId this = None ->
  length (st_observers
            (watchCalls storeClient (this, emptyStore, []) calls).1.2) <= 1.
Proof.
  intros Hid.
  assert (Hinv : watchInvariant this emptyStore) by (by left).
  assert (Hgen : forall calls this s trace,
             watchInvariant this s ->
             watchInvariant (watchCalls storeClient (this, s, trace) calls).1.1
                            (watchCalls storeClient (this, s, trace) calls).1.2).
  { clear. intros calls. unfold watchCalls.
    induction calls as [|call calls IH]; intros this s trace Hinv; [done|].
    cbn [fold_left].
    pose proof (watchStep_invariant this s trace call Hinv) as Hstep.
    destruct (watchStep storeClient (this, s, trace) call) as [[this1 s1] trace1].
    by apply IH. }
  destruct (Hgen calls this emptyStore [] Hinv) as [->|(id & cb & -> & _)];
    simpl; lia.
Qed.

Lemma at_most_one_subscription_witness :
  length (st_observers
            (watchCalls storeClient (exampleSource, emptyStore, [])
               [HostStart noModels; HostStart noModels; HostStop;
                HostStart noModels]).1.2) <= 1.
Proof. apply (at_most_one_subscription exampleSource). reflexivity. Defined.

(* ===================================================================== *)
(** ** Further properties: codec and translators *)
(* ===================================================================== *)

(** Every tag the document translator takes (all but the four composite
    ones, so also [image] and [reference]) makes a normalized field that,
    sent back as an update-operation field, denormalizes to the native
    value it came from. *)
Theorem normalize_denormalize (t : FieldType) (v : JsValue) :
  isCompositeType t = false ->
  (f ← convertFieldValue t v;
   convertUpdateOperationFieldToExampleDocumentField (asUpdateOperationField f))
  = Ok v.
Proof. by destruct t. Qed.

Lemma normalize_denormalize_witness :
  (f ← convertFieldValue TImage (JsString "asset-1");
   convertUpdateOperationFieldToExampleDocumentField (asUpdateOperationField f))
  = Ok (JsString "asset-1").
Proof. apply (normalize_denormalize TImage). reflexivity. Defined.

Lemma convertExampleField_spec (field : ExampleField) :
  field_name (convertExampleField field) = ef_name field
  /\ fieldTypeName (field_type (convertExampleField field))
     = exampleFieldTypeName (ef_type field)
  /\ field_models (convertExampleField field)
     = match ef_type field with
       | EReference => ef_allowedTypes field
       | _ => []
       end.
Proof. unfold convertExampleField. by destruct (ef_type field). Qed.

(** [convertExampleModelsToStackbitModels] gives one [data] model per native
    model, in order and under the same name, and one field per native
    field, in order, under the same name and with the tag that has the
    native tag's own string ([string] for [string], ..., [reference] for
    [reference]); a reference field carries the allowed types as its
    models, the others none. *)
Theorem models_translated_in_order (models : list ExampleModel) :
  map model_name (convertExampleModelsToStackbitModels models)
  = map em_name models
  /\ Forall2
       (fun m m' =>
          model_type m' = "data"
          /\ exists fs,
               model_fields m' = Some fs
               /\ Forall2
                    (fun f f' =>
                       field_name f' = ef_name f
                       /\ fieldTypeName (field_type f')
                          = exampleFieldTypeName (ef_type f)
                       /\ field_models f'
                          = match ef_type f with
                            | EReference => ef_allowedTypes f
                            | _ => []
                            end)
                    (em_fields m) fs)
       models (convertExampleModelsToStackbitModels models).
Proof.
  unfold convertExampleModelsToStackbitModels. split.
  - rewrite <- list_fmap_compose. done.
  - apply Forall2_fmap_r, Forall_Forall2_diag, Forall_forall.
    intros m _. split; [done|].
    eexists. split; [done|].
    apply Forall2_fmap_r, Forall_Forall2_diag, Forall_forall.
    intros f _.
    destruct (convertExampleField_spec f) as (Hname & Htype & Hmodels).
    unfold compose. by rewrite Hname, Htype, Hmodels.
Qed.

(** A translated model has no field of a composite tag. *)
Lemma translated_field_not_composite (models : list ExampleModel)
    (model : Model) (fs : list Field) (f : Field) :
  model ∈ convertExampleModelsToStackbitModels models ->
  model_fields model = Some fs -> f ∈ fs ->
  isCompositeType (field_type f) = false.
Proof.
  unfold convertExampleModelsToStackbitModels.
  intros Hm Hfs Hf. apply list_elem_of_fmap in Hm as (m & -> & _).
  simpl in Hfs. injection Hfs as <-.
  apply list_elem_of_fmap in Hf as (ef & -> & _).
  unfold convertExampleField. by destruct (ef_type ef).
Qed.

Lemma findField_elem (fs : list Field) (name : string) (mf : Field) :
  findField fs name = Some mf -> mf ∈ fs /\ field_name mf = name.
Proof.
  unfold findField. intros H. apply find_some in H as [Hin Heq].
  split; [by apply list_elem_of_In | by apply String.eqb_eq].
Qed.

(** With no composite field in the model, no native field makes the
    translation throw. *)
Lemma foldM_reduceField_ok (model : Model)
    (entries : list (string * JsValue)) (acc : gmap string DocumentField) :
  (forall fs f, model_fields model = Some fs -> f ∈ fs ->
                isCompositeType (field_type f) = false) ->
  exists out, foldM (reduceField (Some model)) acc entries = Ok out.
Proof.
  intros Hsafe. revert acc.
  induction entries as [|[name v] entries IH]; intros acc; simpl; [eauto|].
  destruct (model_fields model) as [fs|] eqn:Hfs; simpl; [|apply IH].
  destruct (findField fs name) as [mf|] eqn:Hfind; simpl; [|apply IH].
  apply findField_elem in Hfind as [Hin _].
  specialize (Hsafe fs mf eq_refl Hin).
  destruct (field_type mf); try discriminate; simpl; apply IH.
Qed.

(** Against a model map made of translated models, documents whose type
    is in the map are always translated: the model translator never
    produces a tag the document translator rejects. *)
Theorem translation_total_on_translated_models (models : list ExampleModel)
    (modelMap : gmap string Model) (manageUrl : string)
    (documents : list ExampleDocument) :
  map_Forall (fun _ model =>
                model ∈ convertExampleModelsToStackbitModels models) modelMap ->
  Forall (fun d => is_Some (modelMap !! doc_type d)) documents ->
  exists out,
    convertExampleDocumentsToStackbitDocuments documents modelMap manageUrl
    = Ok out
    /\ length out = length documents.
Proof.
  intros Hmap Hdocs. unfold convertExampleDocumentsToStackbitDocuments.
  induction Hdocs as [|d ds [model Hmodel] _ (out & IH & Hlen)].
  - by exists [].
  - assert (Hd : exists d', convertExampleDocument modelMap manageUrl d = Ok d').
    { unfold convertExampleDocument. rewrite (modelMapGet_own _ _ _ Hmodel).
      destruct (foldM_reduceField_ok model (doc_fields d) ∅) as [fields ->].
      { intros fs f Hfs Hf.
        eapply translated_field_not_composite; [|done|done].
        by apply (Hmap _ _ Hmodel). }
      simpl. eauto. }
    destruct Hd as [d' Hd]. simpl. rewrite Hd. simpl. rewrite IH. simpl.
    eexists. split; [done|]. simpl. by rewrite Hlen.
Qed.

Lemma translation_total_on_translated_models_witness :
  exists out,
    convertExampleDocumentsToStackbitDocuments
      [ mkExampleDocument "p1" "post" "draft" "2023-01-01" "2023-01-02"
          [("title", JsString "Hi"); ("coverImage", JsString "a7");
           ("author", JsString "a1"); ("mood", JsString "fine")] ]
      (list_to_map
         (map (fun m => (model_name m, m))
              (convertExampleModelsToStackbitModels exampleModels)))
      "https://example.com/project/example"
    = Ok out
    /\ length out = 1.
Proof.
  apply (translation_total_on_translated_models exampleModels).
  - apply map_Forall_lookup. intros name model Hl.
    apply elem_of_list_to_map_2 in Hl.
    apply list_elem_of_fmap in Hl as (m & [= _ ->] & Hm). done.
  - constructor; [|constructor]. by eexists.
Defined.

Lemma mapM_length {A B} (f : A -> result B) (xs : list A) (ys : list B) :
  mapM f xs = Ok ys -> length ys = length xs.
Proof.
  intros H. apply mapM_Forall2 in H. symmetry. by eapply Forall2_length.
Qed.

(** A translation that returns has one document per native document, in
    order: same id, the native type as model name, the manage URL
    [manageUrl/document/id], and the native timestamps. *)
Theorem documents_translated_in_order (modelMap : gmap string Model)
    (manageUrl : string) (documents : list ExampleDocument)
    (out : list Document) :
  convertExampleDocumentsToStackbitDocuments documents modelMap manageUrl
    = Ok out ->
  length out = length documents
  /\ map d_id out = map doc_id documents
  /\ Forall2 (fun d d' =>
                d_type d' = "document"
                /\ d_modelName d' = doc_type d
                /\ d_manageUrl d' = manageUrl +:+ "/document/" +:+ doc_id d
                /\ d_createdAt d' = doc_createdAt d
                /\ d_updatedAt d' = doc_updatedAt d) documents out.
Proof.
  intros H. split; [by eapply mapM_length|].
  apply mapM_Forall2 in H.
  assert (Hall : Forall2 (fun d d' =>
                  d_id d' = doc_id d /\ d_type d' = "document"
                  /\ d_modelName d' = doc_type d
                  /\ d_manageUrl d' = manageUrl +:+ "/document/" +:+ doc_id d
                  /\ d_createdAt d' = doc_createdAt d
                  /\ d_updatedAt d' = doc_updatedAt d) documents out).
  { eapply Forall2_impl; [exact H|]. intros d d' Hd. simpl in Hd.
    unfold convertExampleDocument in Hd.
    destruct (foldM _ _ _) as [fields|e]; simpl in Hd; [|done].
    by injection Hd as <-. }
  clear H. split.
  - induction Hall as [|d d' ds ds' (Hid & _) _ IH]; simpl; [done|].
    by rewrite Hid, IH.
  - eapply Forall2_impl; [exact Hall|]. intros d d' (_ & Hrest). exact Hrest.
Qed.

Lemma documents_translated_in_order_witness :
  exists out,
    convertExampleDocumentsToStackbitDocuments
      [postDocument;
       mkExampleDocument "p2" "post" "published" "2023-03-01" "2023-03-02"
         [("title", JsString "Yo"); ("mood", JsString "fine")]]
      {["post" := postModel]} "https://cms"
    = Ok out
    /\ length out = 2
    /\ map d_id out = ["p1"; "p2"].
Proof.
  eexists. split; [reflexivity|].
  edestruct (documents_translated_in_order {["post" := postModel]}
               "https://cms"
               [postDocument;
                mkExampleDocument "p2" "post" "published" "2023-03-01"
                  "2023-03-02"
                  [("title", JsString "Yo"); ("mood", JsString "fine")]])
    as (Hlen & Hids & _); [reflexivity|].
  split; [exact Hlen | exact Hids].
Defined.

Lemma assignField_other {V} (key key' : string) (value : V)
    (fields : gmap string V) :
  key <> key' -> assignField key value fields !! key' = fields !! key'.
Proof.
  intros Hne. unfold assignField.
  destruct (String.eqb key "__proto__"); [done|]. by rewrite lookup_insert_ne.
Qed.

Lemma assignField_same {V} (key : string) (value : V)
    (fields : gmap string V) :
  key <> "__proto__" -> assignField key value fields !! key = Some value.
Proof.
  intros Hne. unfold assignField. apply String.eqb_neq in Hne. rewrite Hne.
  by rewrite lookup_insert_eq.
Qed.

Section FieldMap.
Context (model : option Model).

(** A key the loop leaves in the field map was there before, or is the
    name of a native field that the model names. *)
Lemma foldM_reduceField_keys (entries : list (string * JsValue))
    (acc out : gmap string DocumentField) (name : string) :
  foldM (reduceField model) acc entries = Ok out ->
  is_Some (out !! name) ->
  is_Some (acc !! name)
  \/ (name ∈ map fst entries
      /\ exists m mf, model = Some m /\ modelFieldOf m name = Some mf
                      /\ field_name mf = name).
Proof.
  revert acc. induction entries as [|[n v] entries IH]; intros acc; simpl.
  - intros [= <-] H. by left.
  - destruct model as [m|] eqn:Hm; simpl; [|done].
    fold (modelFieldOf m n).
    destruct (modelFieldOf m n) as [mf|] eqn:Hmf; simpl.
    + destruct (convertFieldValue (field_type mf) v) as [f|e]; simpl; [|done].
      intros Hrest Hsome.
      destruct (IH _ Hrest Hsome) as [Hacc|(Hin & Hex)].
      * destruct (decide (n = name)) as [->|Hne].
        -- right. split; [simpl; apply list_elem_of_here|].
           exists m, mf. split; [done|]. split; [done|].
           unfold modelFieldOf in Hmf.
           destruct (model_fields m) as [fs|]; [|done].
           by apply findField_elem in Hmf as [_ ?].
        -- left. by rewrite assignField_other in Hacc.
      * right. split; [simpl; by apply list_elem_of_further | done].
    + intros Hrest Hsome.
      destruct (IH _ Hrest Hsome) as [Hacc|(Hin & Hex)]; [by left|].
      right. split; [simpl; by apply list_elem_of_further | done].
Qed.

(** A name that is not among the native fields keeps what it had. *)
Lemma foldM_reduceField_other (entries : list (string * JsValue))
    (acc out : gmap string DocumentField) (name : string) :
  foldM (reduceField model) acc entries = Ok out ->
  name ∉ map fst entries -> out !! name = acc !! name.
Proof.
  revert acc. induction entries as [|[n v] entries IH]; intros acc; simpl.
  - by intros [= <-].
  - intros H Hnot. apply not_elem_of_cons in Hnot as [Hne Hnot].
    destruct model as [m|]; simpl in H; [|done].
    fold (modelFieldOf m n) in H.
    destruct (modelFieldOf m n) as [mf|]; simpl in H.
    + destruct (convertFieldValue (field_type mf) v) as [f|e];
        simpl in H; [|done].
      rewrite (IH _ H Hnot). by rewrite assignField_other.
    + by apply IH.
Qed.

(** The name [__proto__] never becomes a key of the field map. *)
Lemma foldM_reduceField_proto (entries : list (string * JsValue))
    (acc out : gmap string DocumentField) :
  foldM (reduceField model) acc entries = Ok out ->
  out !! "__proto__" = acc !! "__proto__".
Proof.
  revert acc. induction entries as [|[n v] entries IH]; intros acc; simpl.
  - by intros [= <-].
  - intros H. destruct model as [m|]; simpl in H; [|done].
    fold (modelFieldOf m n) in H.
    destruct (modelFieldOf m n) as [mf|]; simpl in H.
    + destruct (convertFieldValue (field_type mf) v) as [f|e];
        simpl in H; [|done].
      rewrite (IH _ H). unfold assignField.
      destruct (String.eqb n "__proto__") eqn:Hn; [done|].
      apply String.eqb_neq in Hn. by rewrite lookup_insert_ne.
    + by apply IH.
Qed.

End FieldMap.

(** What is found under an inherited name is no model with fields. *)
Lemma modelMapGet_fields (modelMap : gmap string Model) (key : string)
    (model : Model) (name : string) (mf : Field) :
  modelMapGet modelMap key = Some model ->
  modelFieldOf model name = Some mf ->
  modelMap !! key = Some model.
Proof.
  unfold modelMapGet. destruct (modelMap !! key) as [own|]; [done|].
  destruct (inheritedMember key); [|done].
  by intros [= <-].
Qed.

(** The field map of a translated document has no key beyond the names
    that are both a native field of the document and a field of its
    model: what the model does not name is left out. *)
Theorem translated_fields_named_by_model (modelMap : gmap string Model)
    (manageUrl : string) (d : ExampleDocument) (d' : Document)
    (name : string) :
  convertExampleDocument modelMap manageUrl d = Ok d' ->
  is_Some (d_fields d' !! name) ->
  name ∈ map fst (doc_fields d)
  /\ exists model mf,
       modelMap !! doc_type d = Some model
       /\ modelFieldOf model name = Some mf
       /\ field_name mf = name.
Proof.
  unfold convertExampleDocument. intros H Hsome.
  destruct (foldM _ _ _) as [fields|e] eqn:Hfold; simpl in H; [|done].
  injection H as <-. simpl in Hsome.
  destruct (foldM_reduceField_keys _ _ _ _ _ Hfold Hsome)
    as [Hempty|(Hin & m & mf & Hm & Hmf & Hname)].
  - rewrite lookup_empty in Hempty. by destruct Hempty.
  - split; [done|]. exists m, mf.
    split; [by eapply modelMapGet_fields|]. done.
Qed.

Lemma translated_fields_named_by_model_witness :
  "title" ∈ map fst (doc_fields postDocument)
  /\ exists model mf,
       ({["post" := postModel]} : gmap string Model)
         !! doc_type postDocument = Some model
       /\ modelFieldOf model "title" = Some mf
       /\ field_name mf = "title".
Proof.
  eapply (translated_fields_named_by_model {["post" := postModel]} "https://cms"
            postDocument).
  - reflexivity.
  - simpl. by eexists.
Defined.

Lemma foldM_reduceField_lookup (model : Model)
    (entries : list (string * JsValue)) (acc out : gmap string DocumentField)
    (name : string) (v : JsValue) :
  foldM (reduceField (Some model)) acc entries = Ok out ->
  NoDup (map fst entries) -> (name, v) ∈ entries ->
  name <> "__proto__" ->
  match modelFieldOf model name with
  | Some mf =>
      exists f, convertFieldValue (field_type mf) v = Ok f
                /\ out !! name = Some f
  | None => out !! name = acc !! name
  end.
Proof.
  revert acc.
  induction entries as [|[n v0] entries IH]; intros acc Hfold Hnd Hin Hproto.
  - by apply elem_of_nil in Hin.
  - simpl in Hnd. apply NoDup_cons in Hnd as [Hfresh Hnd].
    simpl in Hfold. fold (modelFieldOf model n) in Hfold.
    apply elem_of_cons in Hin as [[= <- <-]|Hin].
    + destruct (modelFieldOf model name) as [mf|]; simpl in Hfold.
      * destruct (convertFieldValue (field_type mf) v) as [f|e];
          simpl in Hfold; [|done].
        exists f. split; [done|].
        rewrite (foldM_reduceField_other _ _ _ _ _ Hfold Hfresh).
        by apply assignField_same.
      * by apply (foldM_reduceField_other _ _ _ _ _ Hfold Hfresh).
    + assert (Hne : n <> name).
      { intros ->. apply Hfresh.
        by apply (list_elem_of_fmap_2 fst) in Hin. }
      destruct (modelFieldOf model n) as [mf0|]; simpl in Hfold.
      * destruct (convertFieldValue (field_type mf0) v0) as [f0|e];
          simpl in Hfold; [|done].
        specialize (IH _ Hfold Hnd Hin Hproto).
        destruct (modelFieldOf model name); [done|].
        by rewrite IH, assignField_other.
      * by apply IH.
Qed.

(** What a translated document holds under the name of a native field
    (the names of an object's entries are distinct): the normalized form
    of the native value under the tag of the model field of that name,
    the first one if the model has several, and nothing if the model has
    none.  The name [__proto__] is the exception: the field map never has
    a property of that name, whatever the model says. *)
Theorem translated_field_lookup (modelMap : gmap string Model)
    (manageUrl : string) (d : ExampleDocument) (d' : Document)
    (model : Model) (name : string) (v : JsValue) :
  convertExampleDocument modelMap manageUrl d = Ok d' ->
  modelMap !! doc_type d = Some model ->
  NoDup (map fst (doc_fields d)) ->
  (name, v) ∈ doc_fields d ->
  d_fields d' !! "__proto__" = None
  /\ (name <> "__proto__" ->
      match modelFieldOf model name with
      | Some mf =>
          exists f, convertFieldValue (field_type mf) v = Ok f
                    /\ d_fields d' !! name = Some f
      | None => d_fields d' !! name = None
      end).
Proof.
  unfold convertExampleDocument. intros H Hm Hnd Hin.
  rewrite (modelMapGet_own _ _ _ Hm) in H.
  destruct (foldM _ _ _) as [fields|e] eqn:Hfold; simpl in H; [|done].
  injection H as <-. simpl. split.
  - by rewrite (foldM_reduceField_proto _ _ _ _ Hfold), lookup_empty.
  - intros Hproto.
    pose proof (foldM_reduceField_lookup _ _ _ _ _ _ Hfold Hnd Hin Hproto)
      as Hl.
    destruct (modelFieldOf model name); [done|]. by rewrite Hl, lookup_empty.
Qed.

Lemma translated_field_lookup_witness :
  exists d',
    convertExampleDocument {["post" := postModel]} "https://cms" postDocument
    = Ok d'
    /\ exists f,
         convertFieldValue TReference (JsString "a1") = Ok f
         /\ d_fields d' !! "author" = Some f.
Proof.
  eexists. split; [reflexivity|].
  refine (proj2 (translated_field_lookup {["post" := postModel]} "https://cms"
                   postDocument _ postModel "author" (JsString "a1")
                   _ _ _ _) _).
  - reflexivity.
  - reflexivity.
  - simpl. apply (bool_decide_unpack _). reflexivity.
  - simpl. apply list_elem_of_further, list_elem_of_here.
  - discriminate.
Defined.

Lemma foldM_reduceField_filter (model : Model)
    (entries : list (string * JsValue)) (acc : gmap string DocumentField) :
  foldM (reduceField (Some model)) acc
        (List.filter (namedByModel model) entries)
  = foldM (reduceField (Some model)) acc entries.
Proof.
  revert acc. induction entries as [|[n v] entries IH]; intros acc; [done|].
  simpl. unfold namedByModel at 1. simpl. fold (modelFieldOf model n).
  destruct (modelFieldOf model n) as [mf|] eqn:Hmf; simpl.
  - fold (modelFieldOf model n). rewrite Hmf. simpl.
    destruct (convertFieldValue (field_type mf) v); simpl; [apply IH | done].
  - apply IH.
Qed.

(** Native fields the model does not name are dropped without a trace: a
    document whose model is in the map is translated as the same document
    without these fields is. *)
Theorem unmatched_fields_dropped (modelMap : gmap string Model)
    (manageUrl : string) (d : ExampleDocument) (model : Model) :
  modelMap !! doc_type d = Some model ->
  convertExampleDocument modelMap manageUrl
    (withFields d (List.filter (namedByModel model) (doc_fields d)))
  = convertExampleDocument modelMap manageUrl d.
Proof.
  intros Hm. unfold convertExampleDocument. simpl.
  rewrite (modelMapGet_own _ _ _ Hm).
  by rewrite foldM_reduceField_filter.
Qed.

Lemma unmatched_fields_dropped_witness :
  convertExampleDocument {["post" := postModel]} "https://cms"
    (withFields postDocument
       [("title", JsString "Hi"); ("author", JsString "a1")])
  = convertExampleDocument {["post" := postModel]} "https://cms"
      (withFields postDocument
         [("title", JsString "Hi"); ("mood", JsString "fine");
          ("author", JsString "a1")]).
Proof.
  apply (unmatched_fields_dropped {["post" := postModel]} "https://cms"
           (withFields postDocument
              [("title", JsString "Hi"); ("mood", JsString "fine");
               ("author", JsString "a1")]) postModel).
  reflexivity.
Defined.

(** [convertExampleAssetToStackbitAssets] gives one asset per native
    asset, in order: same id and timestamps, always [published], the
    manage URL [manageUrl/assets/id], the title as a string field, the
    file URL [siteLocalhost] followed by the native URL, and the native
    dimensions. *)
Theorem assets_translated_in_order (manageUrl siteLocalhost : string)
    (assets : list ExampleAsset) :
  map a_id (convertExampleAssetToStackbitAssets assets manageUrl siteLocalhost)
  = map asset_id assets
  /\ Forall2
       (fun a a' =>
          a_type a' = "asset" /\ a_status a' = "published"
          /\ a_manageUrl a' = manageUrl +:+ "/assets/" +:+ asset_id a
          /\ a_createdAt a' = asset_createdAt a
          /\ a_updatedAt a' = asset_updatedAt a
          /\ af_title (a_fields a')
             = DocumentValueField TString (JsString (asset_title a))
          /\ af_file_url (a_fields a') = siteLocalhost +:+ asset_url a
          /\ af_file_width (a_fields a') = asset_width a
          /\ af_file_height (a_fields a') = asset_height a)
       assets
       (convertExampleAssetToStackbitAssets assets manageUrl siteLocalhost).
Proof.
  unfold convertExampleAssetToStackbitAssets. split.
  - by rewrite <- list_fmap_compose.
  - apply Forall2_fmap_r, Forall_Forall2_diag, Forall_forall.
    intros a _. unfold compose. simpl. done.
Qed.

(* ===================================================================== *)
(** ** Further properties: update applier *)
(* ===================================================================== *)

Lemma applyOperation_supported (fields : NativeFields)
    (op : UpdateOperation) :
  operationSupported op = true ->
  applyOperation fields op
  = Ok (assign (propertyKey (opFieldPath op)) (operationValue op) fields).
Proof.
  destruct op as [f p|p mf|p i|p i|p o]; simpl; try done.
  - unfold updatableType, convertUpdateOperationFieldToExampleDocumentField.
    by destruct (uof_type f).
  - by destruct (field_type mf).
Qed.

Lemma applyOperation_unsupported (fields : NativeFields)
    (op : UpdateOperation) :
  operationSupported op = false ->
  applyOperation fields op = Thrown (operationError op).
Proof.
  destruct op as [f p|p mf|p i|p i|p o]; simpl; try done.
  - unfold updatableType, convertUpdateOperationFieldToExampleDocumentField.
    by destruct (uof_type f).
  - by destruct (field_type mf).
Qed.

Lemma foldM_applyOperation_supported (ops : list UpdateOperation)
    (fields : NativeFields) :
  Forall (fun op => operationSupported op = true) ops ->
  foldM applyOperation fields ops
  = Ok (fold_left
          (fun o op =>
             assign (propertyKey (opFieldPath op)) (operationValue op) o)
          ops fields).
Proof.
  intros Hall. revert fields.
  induction Hall as [|op ops Hop _ IH]; intros fields; simpl; [done|].
  rewrite (applyOperation_supported _ _ Hop). simpl. apply IH.
Qed.

Lemma fold_left_assign_plain (ops : list UpdateOperation)
    (o : NativeFields) :
  Forall (fun op => propertyKey (opFieldPath op) <> "__proto__") ops ->
  fold_left
    (fun o op => assign (propertyKey (opFieldPath op)) (operationValue op) o)
    ops o
  = {| properties :=
         fold_left
           (fun m op =>
              <[propertyKey (opFieldPath op) := operationValue op]> m)
           ops (properties o);
       prototype := prototype o |}.
Proof.
  intros Hall. revert o.
  induction Hall as [|op ops Hop _ IH]; intros o; simpl; [by destruct o|].
  rewrite IH. unfold assign. apply String.eqb_neq in Hop. by rewrite Hop.
Qed.

(** The call returns exactly when every operation is one the loop gets
    past: a [set] of a scalar or reference field, or an [unset] of a field
    whose model tag is not composite.  The result is then [{}] after the
    assignments of the operations, one after the other; when no key is
    [__proto__] these are the writes of the operations' values at their
    keys, later over earlier, and the prototype is untouched. *)
Theorem operations_succeed_iff_supported (ops : list UpdateOperation) :
  ((exists out, convertUpdateOperationsToExampleDocumentFields ops = Ok out)
   <-> Forall (fun op => operationSupported op = true) ops)
  /\ (Forall (fun op => operationSupported op = true) ops ->
      convertUpdateOperationsToExampleDocumentFields ops
      = Ok (fold_left
              (fun o op =>
                 assign (propertyKey (opFieldPath op)) (operationValue op) o)
              ops emptyObject))
  /\ (Forall (fun op => operationSupported op = true) ops ->
      Forall (fun op => propertyKey (opFieldPath op) <> "__proto__") ops ->
      convertUpdateOperationsToExampleDocumentFields ops
      = Ok {| properties :=
                fold_left
                  (fun m op =>
                     <[propertyKey (opFieldPath op) := operationValue op]> m)
                  ops ∅;
              prototype := ObjectPrototype |}).
Proof.
  unfold convertUpdateOperationsToExampleDocumentFields.
  split; [|split; [apply foldM_applyOperation_supported|]]; cycle 1.
  { intros Hall Hplain.
    by rewrite (foldM_applyOperation_supported _ _ Hall),
      (fold_left_assign_plain _ _ Hplain). }
  split.
  - generalize emptyObject.
    induction ops as [|op ops IH]; intros fields [out H]; [constructor|].
    simpl in H.
    destruct (operationSupported op) eqn:Hop.
    + rewrite (applyOperation_supported _ _ Hop) in H. simpl in H.
      constructor; [done|]. eapply IH. eauto.
    + by rewrite (applyOperation_unsupported _ _ Hop) in H.
  - intros Hall. rewrite (foldM_applyOperation_supported _ _ Hall). eauto.
Qed.

Lemma operations_succeed_iff_supported_witness :
  convertUpdateOperationsToExampleDocumentFields
    [OpSet (mkUpdateOperationField TReference JsUndefined (JsString "document")
              (JsString "a1")) [SegString "author"];
     OpUnset [SegString "__proto__"] (mkField TString "__proto__" []);
     OpUnset [SegString "coverImage"] (mkField TImage "coverImage" [])]
  = Ok {| properties := <["coverImage" := JsUndefined]>
                          (<["author" := JsString "a1"]> ∅);
          prototype := ObjectPrototype |}.
Proof.
  destruct (operations_succeed_iff_supported
              [OpSet (mkUpdateOperationField TReference JsUndefined
                        (JsString "document") (JsString "a1"))
                     [SegString "author"];
               OpUnset [SegString "__proto__"]
                       (mkField TString "__proto__" []);
               OpUnset [SegString "coverImage"]
                       (mkField TImage "coverImage" [])]) as (_ & H & _).
  apply H. repeat constructor.
Defined.

(** The call fails with the error of the first operation the loop does
    not get past; the operations after it are not looked at.  For an
    operation that is neither [set] nor [unset] the error is
    ['<opType>' operation not implemented]. *)
Theorem first_unsupported_operation_thrown
    (before after : list UpdateOperation) (op : UpdateOperation) :
  Forall (fun op => operationSupported op = true) before ->
  operationSupported op = false ->
  convertUpdateOperationsToExampleDocumentFields (before ++ op :: after)
  = Thrown (operationError op)
  /\ (opType op <> "set" -> opType op <> "unset" ->
      operationError op
      = JsError ("'" +:+ opType op +:+ "' operation not implemented")).
Proof.
  intros Hbefore Hop. split.
  - unfold convertUpdateOperationsToExampleDocumentFields.
    rewrite foldM_app, (foldM_applyOperation_supported _ _ Hbefore). simpl.
    by rewrite (applyOperation_unsupported _ _ Hop).
  - by destruct op.
Qed.

Lemma first_unsupported_operation_thrown_witness :
  convertUpdateOperationsToExampleDocumentFields
    ([OpSet (mkUpdateOperationField TString (JsString "A") JsUndefined
               JsUndefined) [SegString "title"]]
       ++ OpInsert [SegString "tags"]
            (mkUpdateOperationField TString (JsString "x") JsUndefined
               JsUndefined)
       :: [OpReorder [SegString "tags"] [1%N; 0%N]])
  = Thrown (JsError "'insert' operation not implemented").
Proof.
  apply (first_unsupported_operation_thrown
           [OpSet (mkUpdateOperationField TString (JsString "A") JsUndefined
                     JsUndefined) [SegString "title"]]
           [OpReorder [SegString "tags"] [1%N; 0%N]]
           (OpInsert [SegString "tags"]
              (mkUpdateOperationField TString (JsString "x") JsUndefined
                 JsUndefined))).
  - repeat constructor.
  - reflexivity.
Defined.

(** The last operation that writes a key other than [__proto__] decides
    what the result holds as its property of that key, [set] or [unset]
    alike: the denormalized value of a [set], and for an [unset] the
    property is kept, with [undefined] as its value. *)
Theorem last_operation_on_key_decides
    (before after : list UpdateOperation) (op : UpdateOperation)
    (out : NativeFields) :
  convertUpdateOperationsToExampleDocumentFields (before ++ op :: after)
    = Ok out ->
  propertyKey (opFieldPath op) <> "__proto__" ->
  Forall (fun later =>
            propertyKey (opFieldPath later) <> propertyKey (opFieldPath op))
         after ->
  properties out !! propertyKey (opFieldPath op) = Some (operationValue op)
  /\ (forall fieldPath modelField,
        op = OpUnset fieldPath modelField ->
        properties out !! propertyKey fieldPath = Some JsUndefined).
Proof.
  unfold convertUpdateOperationsToExampleDocumentFields.
  intros Hrun Hkey Hafter. rewrite foldM_app in Hrun.
  destruct (foldM applyOperation emptyObject before) as [fields|e];
    simpl in Hrun; [|done].
  destruct (operationSupported op) eqn:Hop.
  - rewrite (applyOperation_supported _ _ Hop) in Hrun. simpl in Hrun.
    assert (Hl : properties out !! propertyKey (opFieldPath op)
                 = Some (operationValue op)).
    { rewrite (applyOperations_other_keys _ _ _ _ Hrun Hafter).
      by apply assign_same. }
    split; [done|]. intros fieldPath modelField ->. exact Hl.
  - by rewrite (applyOperation_unsupported _ _ Hop) in Hrun.
Qed.

Lemma last_operation_on_key_decides_witness :
  properties
    {| properties := <["title" := JsUndefined]> (<["title" := JsString "A"]> ∅);
       prototype := ObjectPrototype |} !! "title" = Some JsUndefined.
Proof.
  refine (proj1 (last_operation_on_key_decides
                   [OpSet (mkUpdateOperationField TString (JsString "A")
                             JsUndefined JsUndefined) [SegString "title"]]
                   []
                   (OpUnset [SegString "title"; SegString "en"]
                            (mkField TString "title" []))
                   {| properties :=
                        <["title" := JsUndefined]>
                          (<["title" := JsString "A"]> ∅);
                      prototype := ObjectPrototype |} _ _ _)).
  - reflexivity.
  - discriminate.
  - constructor.
Defined.

Lemma assign_is_Some (key key' : string) (value : JsValue)
    (o : NativeFields) :
  key' <> "__proto__" ->
  is_Some (properties (assign key value o) !! key')
  <-> key = key' \/ is_Some (properties o !! key').
Proof.
  intros Hproto. destruct (decide (key = key')) as [->|Hne].
  - rewrite (assign_same _ _ _ Hproto). split; [by left | by eexists].
  - rewrite (assign_other _ _ _ _ Hne). split; [by right | by intros [|]].
Qed.

Lemma foldM_applyOperation_keys (ops : list UpdateOperation)
    (fields out : NativeFields) (key : string) :
  foldM applyOperation fields ops = Ok out ->
  key <> "__proto__" ->
  is_Some (properties out !! key)
  <-> is_Some (properties fields !! key)
      \/ key ∈ map (fun op => propertyKey (opFieldPath op)) ops.
Proof.
  intros Hrun Hproto. revert fields Hrun.
  induction ops as [|op ops IH]; intros fields; simpl.
  - intros [= <-]. split; [by left|]. intros [H|H]; [done|].
    by apply elem_of_nil in H.
  - destruct (operationSupported op) eqn:Hop.
    + rewrite (applyOperation_supported _ _ Hop). simpl. intros H.
      rewrite (IH _ H), (assign_is_Some _ _ _ _ Hproto), elem_of_cons.
      split.
      * intros [[->|Hf]|Hin]; [right; by left | by left | right; by right].
      * intros [Hf|[->|Hin]]; [left; by right | left; by left | by right].
    + by rewrite (applyOperation_unsupported _ _ Hop).
Qed.

(** Leaving [__proto__] aside, the properties of the result are exactly
    the first path segments of the operations, as strings ([undefined]
    for an empty path, the number's own string for a number); no
    operations give the empty object [{}]. *)
Theorem update_fields_keys (ops : list UpdateOperation)
    (out : NativeFields) :
  convertUpdateOperationsToExampleDocumentFields ops = Ok out ->
  (forall key, key <> "__proto__" ->
     is_Some (properties out !! key)
     <-> key ∈ map (fun op => propertyKey (opFieldPath op)) ops)
  /\ (ops = [] -> out = emptyObject).
Proof.
  unfold convertUpdateOperationsToExampleDocumentFields. intros H. split.
  - intros key Hproto. rewrite (foldM_applyOperation_keys _ _ _ _ H Hproto).
    simpl. rewrite lookup_empty. split; [|by right].
    intros [Hn|Hin]; [by destruct Hn | done].
  - intros ->. simpl in H. by injection H as <-.
Qed.

Lemma update_fields_keys_witness :
  is_Some (properties
             {| properties := <["1e+21" := JsUndefined]>
                                (<["undefined" := JsString "A"]> ∅);
                prototype := ObjectPrototype |} !! "1e+21")
  <-> "1e+21" ∈ ["undefined"; "1e+21"].
Proof.
  refine (proj1 (update_fields_keys
                   [OpSet (mkUpdateOperationField TString (JsString "A")
                             JsUndefined JsUndefined) [];
                    OpUnset [SegNumber "1e+21"; SegString "x"]
                            (mkField TDate "when" [])]
                   {| properties := <["1e+21" := JsUndefined]>
                                      (<["undefined" := JsString "A"]> ∅);
                      prototype := ObjectPrototype |} _) "1e+21" _).
  - reflexivity.
  - discriminate.
Defined.

Lemma foldM_fieldMap_as_operations
    (entries : list (string * UpdateOperationField))
    (fields : NativeFields) :
  foldM (fun (fields : NativeFields) entry =>
           v ← convertUpdateOperationFieldToExampleDocumentField (snd entry);
           Ok (assign (fst entry) v fields))
        fields entries
  = foldM applyOperation fields
      (map (fun entry => OpSet (snd entry) [SegString (fst entry)]) entries).
Proof.
  revert fields. induction entries as [|[name u] entries IH]; intros fields;
    simpl; [done|].
  destruct (convertUpdateOperationFieldToExampleDocumentField u) as [v|e];
    simpl; [apply IH | done].
Qed.

(** Denormalizing a map of update-operation fields is applying one [set]
    operation per entry, with the entry's name as the path. *)
Theorem field_map_as_set_operations
    (entries : list (string * UpdateOperationField)) :
  convertUpdateOperationFieldsToExampleDocumentFields entries
  = convertUpdateOperationsToExampleDocumentFields
      (map (fun entry => OpSet (snd entry) [SegString (fst entry)]) entries).
Proof. apply foldM_fieldMap_as_operations. Qed.

(** A map of update-operation fields that is denormalized (the names of
    an object's entries are distinct) gives a native object that,
    leaving [__proto__] aside, has exactly the names of the entries as
    properties, each holding the denormalized value of its field. *)
Theorem field_map_lookup (entries : list (string * UpdateOperationField))
    (out : NativeFields) :
  convertUpdateOperationFieldsToExampleDocumentFields entries = Ok out ->
  NoDup (map fst entries) ->
  (forall name, name <> "__proto__" ->
     is_Some (properties out !! name) <-> name ∈ map fst entries)
  /\ (forall name u, (name, u) ∈ entries -> name <> "__proto__" ->
        exists v,
          convertUpdateOperationFieldToExampleDocumentField u = Ok v
          /\ properties out !! name = Some v).
Proof.
  unfold convertUpdateOperationFieldsToExampleDocumentFields.
  rewrite foldM_fieldMap_as_operations. intros H Hnd. split.
  - intros name Hproto.
    rewrite (foldM_applyOperation_keys _ _ _ _ H Hproto).
    simpl. rewrite lookup_empty, <- list_fmap_compose.
    split; [|by right].
    intros [Hn|Hin]; [by destruct Hn | done].
  - intros name u Hin Hproto.
    apply list_elem_of_split in Hin as (pre & post & ->).
    rewrite fmap_app in Hnd. apply NoDup_app in Hnd as (_ & _ & Hnd).
    simpl in Hnd. apply NoDup_cons in Hnd as [Hfresh _].
    rewrite fmap_app, foldM_app in H.
    destruct (foldM applyOperation emptyObject _) as [m1|e];
      simpl in H; [|done].
    destruct (convertUpdateOperationFieldToExampleDocumentField u) as [v|e];
      simpl in H; [|done].
    exists v. split; [done|].
    rewrite (applyOperations_other_keys _ _ _ name H).
    + by apply assign_same.
    + apply Forall_fmap, Forall_forall. intros [n u'] Hin'. simpl.
      intros ->. apply Hfresh. by apply (list_elem_of_fmap_2 fst) in Hin'.
Qed.

Lemma field_map_lookup_witness :
  exists out,
    convertUpdateOperationFieldsToExampleDocumentFields
      [("title", mkUpdateOperationField TString (JsString "Hi") JsUndefined
                   JsUndefined);
       ("author", mkUpdateOperationField TReference JsUndefined
                    (JsString "document") (JsString "a1"))]
    = Ok out
    /\ (is_Some (properties out !! "author")
        <-> "author" ∈ ["title"; "author"]).
Proof.
  eexists. split; [reflexivity|].
  refine (proj1 (field_map_lookup
                   [("title", mkUpdateOperationField TString (JsString "Hi")
                                JsUndefined JsUndefined);
                    ("author", mkUpdateOperationField TReference JsUndefined
                                 (JsString "document") (JsString "a1"))]
                   _ _ _) "author" _).
  - reflexivity.
  - simpl. apply (bool_decide_unpack _). reflexivity.
  - discriminate.
Defined.

(* ===================================================================== *)
(** ** Further properties: the ExampleContentSource instance *)
(* ===================================================================== *)

(** The constructor throws exactly when [projectId] is empty.  Otherwise
    the instance has that project id, the manage URL
    [https://example.com/project/<projectId>], the given site address or
    [http://localhost:3000] when none is given, no subscription handle,
    and neither logger nor store client before [init]. *)
Theorem constructor_requires_projectId (options : ContentSourceOptions) :
  (cso_projectId options = "" ->
   new_ExampleContentSource options
   = Thrown (JsError "ExampleContentSource requires projectId"))
  /\ (cso_projectId options <> "" ->
      exists this,
        new_ExampleContentSource options = Ok this
        /\ getProjectId this = cso_projectId options
        /\ getProjectManageUrl this
           = "https://example.com/project/" +:+ cso_projectId options
        /\ siteLocalhost this
           = match cso_siteLocalhost options with
             | Some address => address
             | None => "http://localhost:3000"
             end
        /\ observerId this = None
        /\ logger this = None /\ apiClient this = None).
Proof.
  unfold new_ExampleContentSource. simpl. split.
  - intros ->. done.
  - intros Hne. apply String.eqb_neq in Hne. rewrite Hne. simpl.
    eexists. split; [done|]. simpl.
    by destruct (cso_siteLocalhost options).
Qed.

Lemma constructor_requires_projectId_witness :
  new_ExampleContentSource (mkContentSourceOptions "" None None)
  = Thrown (JsError "ExampleContentSource requires projectId")
  /\ exists this,
       new_ExampleContentSource
         (mkContentSourceOptions "example" None (Some "")) = Ok this
       /\ getProjectManageUrl this = "https://example.com/project/example"
       /\ siteLocalhost this = "".
Proof.
  split.
  - destruct (constructor_requires_projectId
                (mkContentSourceOptions "" None None)) as [H _].
    by apply H.
  - destruct (constructor_requires_projectId
                (mkContentSourceOptions "example" None (Some ""))) as [_ H].
    destruct H as (this & Hnew & _ & Hurl & Hsite & _); [discriminate|].
    exists this. split; [exact Hnew|]. split; [exact Hurl | exact Hsite].
Defined.

Section Methods.
Context {S : Type} (h : DataHandler S).

(** Before [init] there is no logger: the methods that log first fail on
    [this.logger.debug], before anything else happens.  [deleteDocument]
    and [publishDocuments], which do not log, fail on the missing store
    client.  Nothing reaches the store. *)
Theorem methods_before_init (this : ExampleContentSource) (s : S)
    (trace : list DataTraceEntry) :
  logger this = None -> apiClient this = None ->
  (forall modelMap create update,
     runData h (getModels this) s trace
       = (Thrown (JsTypeError "debug"), s, trace)
     /\ runData h (getDocuments this modelMap) s trace
        = (Thrown (JsTypeError "debug"), s, trace)
     /\ runData h (getAssets this) s trace
        = (Thrown (JsTypeError "debug"), s, trace)
     /\ runData h (createDocument this create) s trace
        = (Thrown (JsTypeError "debug"), s, trace)
     /\ runData h (updateDocument this update) s trace
        = (Thrown (JsTypeError "debug"), s, trace))
  /\ (forall document documents assets,
        runData h (deleteDocument this document) s trace
          = (Thrown (JsTypeError "deleteDocument"), s, trace)
        /\ runData h (publishDocuments this documents assets) s trace
           = (Thrown (JsTypeError "publishDocuments"), s, trace)).
Proof.
  intros Hl Hc. split.
  - intros modelMap create update.
    unfold getModels, getDocuments, getAssets, createDocument,
      updateDocument, dataDebug.
    rewrite Hl. done.
  - intros document documents assets.
    unfold deleteDocument, publishDocuments, clientAwait. by rewrite Hc.
Qed.

(** [createDocument] denormalizes the fields before it calls the store.
    If a field cannot be denormalized the call fails with that error and
    the store is not called.  Otherwise the store is asked once to create
    a document of the model's name with the denormalized fields, and the
    result is the translation of the document the store answers with. *)
Theorem createDocument_checks_fields_first (this : ExampleContentSource)
    (options : CreateDocumentOptions) (s : S) (trace : list DataTraceEntry) :
  is_Some (logger this) -> is_Some (apiClient this) ->
  match convertUpdateOperationFieldsToExampleDocumentFields
          (cd_updateOperationFields options) with
  | Thrown e =>
      runData h (createDocument this options) s trace
      = (Thrown e, s, trace ++ [DataLogged "createDocument"])
  | Ok fields =>
      let call := CreateDocument (model_name (cd_model options)) fields in
      match h _ call s with
      | (inl document, s1) =>
          runData h (createDocument this options) s trace
          = (convertExampleDocument (cd_modelMap options) (manageUrl this)
               document,
             s1,
             trace ++ [DataLogged "createDocument"; DataCalled call;
                       DataLogged ("created document, id: "
                                   +:+ doc_id document)])
      | (inr reason, s1) =>
          runData h (createDocument this options) s trace
          = (Thrown (StoreRejected reason), s1,
             trace ++ [DataLogged "createDocument"; DataCalled call])
      end
  end.
Proof.
  intros [l Hl] [c Hc].
  unfold createDocument, convertOne, dataDebug, clientAwait.
  rewrite Hl, Hc. simpl.
  destruct (convertUpdateOperationFieldsToExampleDocumentFields _)
    as [fields|e]; simpl; [|done].
  destruct (h _ (CreateDocument _ fields) s) as [[document|reason] s1];
    simpl; [|by rewrite <- app_assoc].
  unfold convertExampleDocumentsToStackbitDocuments. simpl.
  destruct (convertExampleDocument _ _ document); simpl;
    by rewrite <- !app_assoc.
Qed.

(** [updateDocument] likewise: an operation list that cannot be applied
    fails before the store is called; otherwise the store is asked once
    to update the document of the given id with the fields the operations
    give, and the result is the translation of the store's answer. *)
Theorem updateDocument_checks_operations_first (this : ExampleContentSource)
    (options : UpdateDocumentOptions) (s : S) (trace : list DataTraceEntry) :
  is_Some (logger this) -> is_Some (apiClient this) ->
  match convertUpdateOperationsToExampleDocumentFields
          (ud_operations options) with
  | Thrown e =>
      runData h (updateDocument this options) s trace
      = (Thrown e, s, trace ++ [DataLogged "updateDocument"])
  | Ok fields =>
      let call := UpdateDocument (d_id (ud_document options)) fields in
      match h _ call s with
      | (inl document, s1) =>
          runData h (updateDocument this options) s trace
          = (convertExampleDocument (ud_modelMap options) (manageUrl this)
               document,
             s1,
             trace ++ [DataLogged "updateDocument"; DataCalled call;
                       DataLogged ("update document, id: "
                                   +:+ doc_id document)])
      | (inr reason, s1) =>
          runData h (updateDocument this options) s trace
          = (Thrown (StoreRejected reason), s1,
             trace ++ [DataLogged "updateDocument"; DataCalled call])
      end
  end.
Proof.
  intros [l Hl] [c Hc].
  unfold updateDocument, convertOne, dataDebug, clientAwait.
  rewrite Hl, Hc. simpl.
  destruct (convertUpdateOperationsToExampleDocumentFields _)
    as [fields|e]; simpl; [|done].
  destruct (h _ (UpdateDocument _ fields) s) as [[document|reason] s1];
    simpl; [|by rewrite <- app_assoc].
  unfold convertExampleDocumentsToStackbitDocuments. simpl.
  destruct (convertExampleDocument _ _ document); simpl;
    by rewrite <- !app_assoc.
Qed.

End Methods.

Lemma methods_before_init_witness :
  runData dataStore
    (getModels (mkExampleContentSource "example" None
                  "https://example.com/project/example"
                  "http://localhost:3000" None None None None None))
    [postDocument] []
  = (Thrown (JsTypeError "debug"), [postDocument], []).
Proof.
  apply (methods_before_init dataStore
           (mkExampleContentSource "example" None
              "https://example.com/project/example" "http://localhost:3000"
              None None None None None) [postDocument] [] eq_refl eq_refl).
  - exact ∅.
  - exact (mkCreateDocumentOptions [] postModel ∅).
  - exact (mkUpdateDocumentOptions
             (mkDocument "" "" "" "" "" "" "" ∅) [] ∅).
Defined.

(** An image sent under the [image] tag stops [createDocument] before the
    store is asked. *)
Lemma createDocument_checks_fields_first_witness :
  runData dataStore
    (createDocument exampleSource
       (mkCreateDocumentOptions
          [("title", mkUpdateOperationField TString (JsString "Hi")
                       JsUndefined JsUndefined);
           ("coverImage", imageUpdate)]
          postModel {["post" := postModel]}))
    [] []
  = (Thrown (JsError "updating field of type image not implemented"),
     [], [DataLogged "createDocument"]).
Proof.
  apply (createDocument_checks_fields_first dataStore exampleSource
           (mkCreateDocumentOptions
              [("title", mkUpdateOperationField TString (JsString "Hi")
                           JsUndefined JsUndefined);
               ("coverImage", imageUpdate)]
              postModel {["post" := postModel]}) [] []);
    simpl; eauto.
Defined.

(** An update that writes the title reaches the store and comes back
    translated. *)
Lemma updateDocument_checks_operations_first_witness :
  exists d',
    runData dataStore
      (updateDocument exampleSource
         (mkUpdateDocumentOptions
            (mkDocument "document" "p1" "post" "added" "" "" "" ∅)
            [OpSet (mkUpdateOperationField TString (JsString "Ho")
                      JsUndefined JsUndefined) [SegString "title"]]
            {["post" := postModel]}))
      [postDocument] []
    = (Ok d', [withFields postDocument
                 [("author", JsString "a1"); ("title", JsString "Ho")]],
       [DataLogged "updateDocument";
        DataCalled (UpdateDocument "p1"
                      {| properties := {["title" := JsString "Ho"]};
                         prototype := ObjectPrototype |});
        DataLogged "update document, id: p1"])
    /\ d_fields d' !! "title"
       = Some (DocumentValueField TString (JsString "Ho")).
Proof.
  eexists. split.
  - refine (updateDocument_checks_operations_first dataStore exampleSource
              (mkUpdateDocumentOptions
                 (mkDocument "document" "p1" "post" "added" "" "" "" ∅)
                 [OpSet (mkUpdateOperationField TString (JsString "Ho")
                           JsUndefined JsUndefined) [SegString "title"]]
                 {["post" := postModel]}) [postDocument] [] _ _);
      simpl; eauto.
  - reflexivity.
Defined.

Section Reading.
Context {S : Type} (h : DataHandler S).

(** After [init], each reading method asks the store once, for its own
    kind of data, logs how many items came back, and returns their
    translation: [getModels] and [getAssets] cannot fail once the store
    has answered, [getDocuments] fails as the document translator does. *)
Theorem reading_methods (this : ExampleContentSource)
    (modelMap : gmap string Model) (s : S) (trace : list DataTraceEntry) :
  is_Some (logger this) -> is_Some (apiClient this) ->
  match h _ GetModels s with
  | (inl models, s1) =>
      runData h (getModels this) s trace
      = (Ok (convertExampleModelsToStackbitModels models), s1,
         trace ++ [DataLogged "getModels"; DataCalled GetModels;
                   DataLogged ("got " +:+ decimal (length models)
                               +:+ " models")])
  | (inr reason, s1) =>
      runData h (getModels this) s trace
      = (Thrown (StoreRejected reason), s1,
         trace ++ [DataLogged "getModels"; DataCalled GetModels])
  end
  /\ match h _ GetDocuments s with
     | (inl documents, s1) =>
         runData h (getDocuments this modelMap) s trace
         = (convertExampleDocumentsToStackbitDocuments documents modelMap
              (manageUrl this),
            s1,
            trace ++ [DataLogged "getDocuments"; DataCalled GetDocuments;
                      DataLogged ("got " +:+ decimal (length documents)
                                  +:+ " documents")])
     | (inr reason, s1) =>
         runData h (getDocuments this modelMap) s trace
         = (Thrown (StoreRejected reason), s1,
            trace ++ [DataLogged "getDocuments"; DataCalled GetDocuments])
     end
  /\ match h _ GetAssets s with
     | (inl assets, s1) =>
         runData h (getAssets this) s trace
         = (Ok (convertExampleAssetToStackbitAssets assets (manageUrl this)
                  (siteLocalhost this)),
            s1,
            trace ++ [DataLogged "getAssets"; DataCalled GetAssets;
                      DataLogged ("got " +:+ decimal (length assets)
                                  +:+ " assets")])
     | (inr reason, s1) =>
         runData h (getAssets this) s trace
         = (Thrown (StoreRejected reason), s1,
            trace ++ [DataLogged "getAssets"; DataCalled GetAssets])
     end.
Proof.
  intros [l Hl] [c Hc].
  unfold getModels, getDocuments, getAssets, dataDebug, clientAwait.
  rewrite Hl, Hc. simpl. repeat split.
  - destruct (h _ GetModels s) as [[models|reason] s1]; simpl;
      by rewrite <- !app_assoc.
  - destruct (h _ GetDocuments s) as [[documents|reason] s1]; simpl;
      [|by rewrite <- !app_assoc].
    destruct (convertExampleDocumentsToStackbitDocuments _ _ _); simpl;
      by rewrite <- !app_assoc.
  - destruct (h _ GetAssets s) as [[assets|reason] s1]; simpl;
      by rewrite <- !app_assoc.
Qed.

(** [publishDocuments] asks the store once to publish the ids of the
    given documents, in their order, whatever assets are passed along;
    [deleteDocument] asks it once to delete the document's id.  Neither
    logs nor translates anything. *)
Theorem publish_and_delete (this : ExampleContentSource)
    (documents : list Document) (assets : list Asset) (document : Document)
    (s : S) (trace : list DataTraceEntry) :
  is_Some (apiClient this) ->
  runData h (publishDocuments this documents assets) s trace
  = (match (h _ (PublishDocuments (map d_id documents)) s).1 with
     | inl _ => Ok tt
     | inr reason => Thrown (StoreRejected reason)
     end,
     (h _ (PublishDocuments (map d_id documents)) s).2,
     trace ++ [DataCalled (PublishDocuments (map d_id documents))])
  /\ runData h (publishDocuments this documents assets) s trace
     = runData h (publishDocuments this documents []) s trace
  /\ runData h (deleteDocument this document) s trace
     = (match (h _ (DeleteDocument (d_id document)) s).1 with
        | inl _ => Ok tt
        | inr reason => Thrown (StoreRejected reason)
        end,
        (h _ (DeleteDocument (d_id document)) s).2,
        trace ++ [DataCalled (DeleteDocument (d_id document))]).
Proof.
  intros [c Hc]. unfold publishDocuments, deleteDocument, clientAwait.
  rewrite Hc. simpl. repeat split.
  - by destruct (h _ (PublishDocuments _) s) as [[[]|reason] s1].
  - by destruct (h _ (DeleteDocument _) s) as [[[]|reason] s1].
Qed.

End Reading.

Lemma reading_methods_witness :
  runData dataStore (getDocuments exampleSource {["post" := postModel]})
    [postDocument] []
  = (convertExampleDocumentsToStackbitDocuments [postDocument]
       {["post" := postModel]} "https://example.com/project/example",
     [postDocument],
     [DataLogged "getDocuments"; DataCalled GetDocuments;
      DataLogged "got 1 documents"]).
Proof.
  refine (proj1 (proj2 (reading_methods dataStore exampleSource
                          {["post" := postModel]} [postDocument] [] _ _)));
    simpl; eauto.
Defined.

Lemma publish_and_delete_witness :
  runData dataStore
    (publishDocuments exampleSource
       [mkDocument "document" "p1" "post" "added" "" "" "" ∅] [])
    [postDocument] []
  = (Ok tt, [mkExampleDocument "p1" "post" "published" "2023-01-01"
               "2023-01-02"
               [("title", JsString "Hi"); ("author", JsString "a1")]],
     [DataCalled (PublishDocuments ["p1"])]).
Proof.
  refine (proj1 (publish_and_delete dataStore exampleSource
                   [mkDocument "document" "p1" "post" "added" "" "" "" ∅] []
                   (mkDocument "document" "p1" "post" "added" "" "" "" ∅)
                   [postDocument] [] _)).
  simpl; eauto.
Defined.

Section Lifecycle.
Context {S : Type} (h : Handler S).

(** [init] sets the logger, the store client and [localDev] and keeps the
    rest of the instance.  Without a webhook URL it does not call the
    store.  With one it asks the store for the webhook
    [stackbit-content-source] and creates it only when the store has
    none. *)
Theorem init_webhook (this : ExampleContentSource) (options : InitOptions)
    (s : S) (trace : list TraceEntry) :
  let '(r, s', trace') := run h (init this options) s trace in
  (forall this', r = Ok this' ->
     is_Some (logger this') /\ is_Some (apiClient this')
     /\ localDev this' = Some (io_localDev options)
     /\ projectId this' = projectId this
     /\ manageUrl this' = manageUrl this
     /\ siteLocalhost this' = siteLocalhost this
     /\ observerId this' = observerId this)
  /\ (truthy (io_webhookUrl options) = false ->
      (exists this', r = Ok this') /\ s' = s
      /\ trace' = trace ++ [Logged "initialized ExampleContentSource"])
  /\ (truthy (io_webhookUrl options) = true ->
      match h _ (GetWebhook "stackbit-content-source") s with
      | (inl true, s1) =>
          (exists this', r = Ok this') /\ s' = s1
          /\ trace' = trace ++
               [Logged "initialized ExampleContentSource";
                Logged "checking if stackbit webhook exists";
                Called (GetWebhook "stackbit-content-source");
                Logged "got a stackbit-content-source webhook"]
      | (inl false, s1) =>
          match h _ (CreateWebhook "stackbit-content-source") s1 with
          | (inl created, s2) =>
              (exists this', r = Ok this') /\ s' = s2
              /\ trace' = trace ++
                   [Logged "initialized ExampleContentSource";
                    Logged "checking if stackbit webhook exists";
                    Called (GetWebhook "stackbit-content-source");
                    Logged "no webhook 'stackbit-content-source' was found, creating a new webhook";
                    Called (CreateWebhook "stackbit-content-source")]
                   ++ (if created
                       then [Logged "got a stackbit-content-source webhook"]
                       else [])
          | (inr reason, s2) => r = Thrown (StoreRejected reason) /\ s' = s2
          end
      | (inr reason, s1) => r = Thrown (StoreRejected reason) /\ s' = s1
      end).
Proof.
  unfold init, debug. simpl.
  destruct (truthy (io_webhookUrl options)); simpl.
  - destruct (h _ (GetWebhook "stackbit-content-source") s)
      as [[[|]|reason] s1]; simpl.
    + split; [by intros this' [= <-]; simpl; eauto|].
      split; [done|]. intros _. rewrite <- !app_assoc. eauto.
    + destruct (h _ (CreateWebhook "stackbit-content-source") _)
        as [[[|]|reason] s2]; simpl.
      * split; [by intros this' [= <-]; simpl; eauto|].
        split; [done|]. intros _. rewrite <- !app_assoc. eauto.
      * split; [by intros this' [= <-]; simpl; eauto|].
        split; [done|]. intros _. rewrite <- !app_assoc. simpl. eauto.
      * split; [done|]. split; done.
    + split; [done|]. split; done.
  - split; [by intros this' [= <-]; simpl; eauto|].
    split; [eauto | done].
Qed.

(** [stopWatchingContentUpdates] calls the store exactly when a non-empty
    handle is stored: with no handle, or with the empty string as handle,
    it does nothing; otherwise it makes the one call
    [stopObservingContentChanges] with that handle. *)
Theorem stop_calls_store_iff_handle (this : ExampleContentSource)
    (s : S) (trace : list TraceEntry) :
  is_Some (apiClient this) ->
  (observerId this = None \/ observerId this = Some "" ->
   run h (stopWatchingContentUpdates this) s trace = (Ok tt, s, trace))
  /\ (forall id, observerId this = Some id -> id <> "" ->
        (run h (stopWatchingContentUpdates this) s trace).2
        = trace ++ [Called (StopObservingContentChanges id)]
        /\ (run h (stopWatchingContentUpdates this) s trace).1.2
           = (h _ (StopObservingContentChanges id) s).2).
Proof.
  intros Hc. split.
  - intros Hid. apply truthy_false in Hid.
    unfold stopWatchingContentUpdates. by rewrite Hid.
  - intros id Hid Hne. rewrite (run_stopWatching h _ _ _ _ Hid Hne Hc).
    by destruct (h _ (StopObservingContentChanges id) s) as [[x|reason] s1].
Qed.

(** [startWatchingContentUpdates] with no handle stored subscribes once
    and stores the handle the store returns.  With a handle stored it
    first stops that subscription, and if the store rejects the stop it
    fails without subscribing. *)
Theorem start_subscribes_once (this : ExampleContentSource)
    (options : WatchOptions) (s : S) (trace : list TraceEntry) :
  is_Some (apiClient this) ->
  let subscribe :=
    StartObservingContentChanges (contentChangeCallback this options) in
  (truthy (observerId this) = false ->
   run h (startWatchingContentUpdates this options) s trace
   = match h _ subscribe s with
     | (inl id, s1) =>
         (Ok (set_observerId this (Some id)), s1, trace ++ [Called subscribe])
     | (inr reason, s1) =>
         (Thrown (StoreRejected reason), s1, trace ++ [Called subscribe])
     end)
  /\ (forall id, observerId this = Some id -> id <> "" ->
        run h (startWatchingContentUpdates this options) s trace
        = match h _ (StopObservingContentChanges id) s with
          | (inl _, s1) =>
              match h _ subscribe s1 with
              | (inl id', s2) =>
                  (Ok (set_observerId this (Some id')), s2,
                   trace ++ [Called (StopObservingContentChanges id);
                             Called subscribe])
              | (inr reason, s2) =>
                  (Thrown (StoreRejected reason), s2,
                   trace ++ [Called (StopObservingContentChanges id);
                             Called subscribe])
              end
          | (inr reason, s1) =>
              (Thrown (StoreRejected reason), s1,
               trace ++ [Called (StopObservingContentChanges id)])
          end).
Proof.
  intros [c Hc]. simpl. split.
  - intros Ht. unfold startWatchingContentUpdates. rewrite Ht, Hc. simpl.
    by destruct (h _ (StartObservingContentChanges _) s) as [[id|reason] s1].
  - intros id Hid Hne. unfold startWatchingContentUpdates.
    rewrite run_bind.
    assert (Ht : truthy (observerId this) = true).
    { rewrite Hid. simpl. apply String.eqb_neq in Hne. by rewrite Hne. }
    rewrite Ht, (run_stopWatching h _ _ _ _ Hid Hne (ex_intro _ c Hc)).
    destruct (h _ (StopObservingContentChanges id) s) as [[x|reason] s1];
      [|done].
    rewrite Hc. simpl.
    destruct (h _ (StartObservingContentChanges _) s1) as [[id'|reason] s2];
      simpl; by rewrite <- app_assoc.
Qed.

End Lifecycle.

Lemma stop_calls_store_iff_handle_witness :
  run storeClient
    (stopWatchingContentUpdates (set_observerId exampleSource (Some "")))
    emptyStore []
  = (Ok tt, emptyStore, []).
Proof.
  apply (stop_calls_store_iff_handle storeClient
           (set_observerId exampleSource (Some "")) emptyStore []).
  - simpl. eauto.
  - by right.
Defined.

Lemma start_subscribes_once_witness :
  run storeClient (startWatchingContentUpdates exampleSource noModels)
    emptyStore []
  = (Ok (set_observerId exampleSource (Some "observer-0")),
     {| st_observers :=
          [("observer-0", contentChangeCallback exampleSource noModels)];
        st_nextId := 1; st_assets := []; st_webhook := false |},
     [Called (StartObservingContentChanges
                (contentChangeCallback exampleSource noModels))]).
Proof.
  refine (proj1 (start_subscribes_once storeClient exampleSource noModels
                   emptyStore [] _) _).
  - simpl. eauto.
  - reflexivity.
Defined.

(** In the store of the examples, which has no webhook at first. *)
Example init_creates_webhook :
  run storeClient
    (init exampleSource
       {| io_localDev := false;
          io_webhookUrl := Some "https://app.example.com/_stackbit/onWebhook" |})
    emptyStore []
  = (Ok (mkExampleContentSource "example" None
           "https://example.com/project/example" "http://localhost:3000"
           (Some "example-content-source") (Some "example-content-source")
           (Some false) (Some None) None),
     {| st_observers := []; st_nextId := 0; st_assets := [];
        st_webhook := true |},
     [Logged "initialized ExampleContentSource";
      Logged "checking if stackbit webhook exists";
      Called (GetWebhook "stackbit-content-source");
      Logged "no webhook 'stackbit-content-source' was found, creating a new webhook";
      Called (CreateWebhook "stackbit-content-source");
      Logged "got a stackbit-content-source webhook"]).
Proof. reflexivity. Qed.

(* ===================================================================== *)
(** ** Further properties: what a batch holds *)
(* ===================================================================== *)

Section BatchContents.
Context (this : ExampleContentSource) (options : WatchOptions).

Lemma foldM_classify_contents (events : list ExampleEvent)
    (acc batch : ContentChangeEvent) :
  foldM (classifyEvent this options) acc events = Ok batch ->
  deletedDocumentIds batch
  = deletedDocumentIds acc
    ++ map ev_documentId (List.filter isDeletionEvent events)
  /\ exists docs newAssets,
       documents batch = documents acc ++ docs
       /\ assets batch = assets acc ++ newAssets
       /\ Forall2
            (fun event d' =>
               exists document,
                 ev_document event = Some document
                 /\ convertExampleDocument (getModelMap options tt)
                      (manageUrl this) document = Ok d')
            (List.filter isDocumentEvent events) docs
       /\ Forall2
            (fun event a' =>
               exists asset,
                 ev_asset event = Some asset
                 /\ a' = convertExampleAsset (manageUrl this)
                           (siteLocalhost this) asset)
            (List.filter isAssetEvent events) newAssets.
Proof.
  revert acc. induction events as [|event events IH]; intros acc; simpl.
  - intros [= <-]. rewrite app_nil_r. split; [done|].
    exists [], []. rewrite !app_nil_r. repeat split; constructor.
  - destruct (classifyEvent this options acc event) as [acc'|e] eqn:Hstep;
      simpl; [|done].
    intros Hrest. destruct (IH _ Hrest) as (Hdel & docs & newAssets & Hdocs
                                            & Hassets & Hfd & Hfa).
    clear IH Hrest. unfold classifyEvent in Hstep.
    unfold isDeletionEvent, isAssetEvent, isDocumentEvent.
    destruct (String.eqb (ev_name event) "document-created"
              || String.eqb (ev_name event) "document-updated") eqn:Hdoc;
      simpl.
    + destruct (ev_document event) as [document|] eqn:Hdocument; [|done].
      destruct (convertExampleDocumentsToStackbitDocuments _ _ _)
        as [converted|e] eqn:Hconv; simpl in Hstep; [|done].
      apply convert_single_document in Hconv as (d' & -> & Hd').
      injection Hstep as <-. simpl in *.
      split; [done|].
      exists (d' :: docs), newAssets.
      split; [by rewrite Hdocs, <- app_assoc|].
      split; [done|]. split; [|done].
      constructor; [eauto | done].
    + destruct (String.eqb (ev_name event) "document-deleted") eqn:Hdeleted;
        simpl.
      * injection Hstep as <-. simpl in *.
        rewrite Hdel, <- app_assoc. split; [done|].
        by exists docs, newAssets.
      * destruct (String.eqb (ev_name event) "asset-created") eqn:Hasset;
          simpl.
        -- destruct (ev_asset event) as [asset|] eqn:Ha; [|done].
           simpl in Hstep. injection Hstep as <-. simpl in *.
           split; [done|].
           exists docs, (convertExampleAsset (manageUrl this)
                           (siteLocalhost this) asset :: newAssets).
           split; [done|].
           split; [by rewrite Hassets, <- app_assoc|]. split; [done|].
           constructor; [eauto | done].
        -- injection Hstep as <-. split; [done|].
           by exists docs, newAssets.
Qed.

(** A batch that is assembled holds, each in the order of the events:
    the translation of the document of every document-created and
    document-updated event, under the model map the host gives; the id of
    every document-deleted event; and the translation of the asset of
    every asset-created event. *)
Theorem batch_contents (events : list ExampleEvent)
    (batch : ContentChangeEvent) :
  contentChangeCallback this options events = Ok batch ->
  deletedDocumentIds batch
  = map ev_documentId (List.filter isDeletionEvent events)
  /\ Forall2
       (fun event d' =>
          exists document,
            ev_document event = Some document
            /\ convertExampleDocument (getModelMap options tt)
                 (manageUrl this) document = Ok d')
       (List.filter isDocumentEvent events) (documents batch)
  /\ Forall2
       (fun event a' =>
          exists asset,
            ev_asset event = Some asset
            /\ a' = convertExampleAsset (manageUrl this)
                      (siteLocalhost this) asset)
       (List.filter isAssetEvent events) (assets batch).
Proof.
  unfold contentChangeCallback. intros H.
  apply foldM_classify_contents in H
    as (Hdel & docs & newAssets & Hdocs & Hassets & Hfd & Hfa).
  simpl in *. by subst.
Qed.


End BatchContents.

Lemma batch_contents_witness :
  exists batch,
    contentChangeCallback exampleSource noModels
      [ mkExampleEvent "document-deleted" None (JsString "p0") None;
        mkExampleEvent "asset-created" None JsUndefined
          (Some (mkExampleAsset "a1" "" "" "Cover" "/images/cover.png"
                   640 480));
        mkExampleEvent "document-deleted" None (JsString "p9") None ]
    = Ok batch
    /\ deletedDocumentIds batch = [JsString "p0"; JsString "p9"].
Proof.
  eexists. split; [reflexivity|].
  eapply (batch_contents exampleSource noModels
            [ mkExampleEvent "document-deleted" None (JsString "p0") None;
              mkExampleEvent "asset-created" None JsUndefined
                (Some (mkExampleAsset "a1" "" "" "Cover" "/images/cover.png"
                         640 480));
              mkExampleEvent "document-deleted" None (JsString "p9") None ]).
  reflexivity.
Defined.


(* ===================================================================== *)
(** ** Further properties: lookups by id *)
(* ===================================================================== *)

(** [getDocumentById] and [getAssetById] return [null] without asking the
    store when the id is undefined or empty.  Otherwise they ask the
    store once for all items; what they return has the id asked for and
    is the first such item, and [null] means that no item has it. *)
Theorem lookups_by_id {S} (h : DataHandler S) (id : option string) (s : S)
    (trace : list DataTraceEntry) :
  (id = None \/ id = Some "" ->
   runData h (getDocumentById id) s trace = (Ok None, s, trace)
   /\ runData h (getAssetById id) s trace = (Ok None, s, trace))
  /\ (forall wanted documents s1,
        id = Some wanted -> wanted <> "" ->
        h _ GetDocuments s = (inl documents, s1) ->
        exists found,
          runData h (getDocumentById id) s trace
          = (Ok found, s1, trace ++ [DataCalled GetDocuments])
          /\ match found with
             | Some document =>
                 exists before after,
                   documents = before ++ document :: after
                   /\ doc_id document = wanted
                   /\ Forall (fun d => doc_id d <> wanted) before
             | None => Forall (fun d => doc_id d <> wanted) documents
             end)
  /\ (forall wanted assets s1,
        id = Some wanted -> wanted <> "" ->
        h _ GetAssets s = (inl assets, s1) ->
        exists found,
          runData h (getAssetById id) s trace
          = (Ok found, s1, trace ++ [DataCalled GetAssets])
          /\ match found with
             | Some asset =>
                 exists before after,
                   assets = before ++ asset :: after
                   /\ asset_id asset = wanted
                   /\ Forall (fun a => asset_id a <> wanted) before
             | None => Forall (fun a => asset_id a <> wanted) assets
             end).
Proof.
  assert (Hfind : forall {A} (key : A -> string) (wanted : string)
                         (items : list A),
             match List.find (fun x => String.eqb (key x) wanted) items with
             | Some x =>
                 exists before after,
                   items = before ++ x :: after /\ key x = wanted
                   /\ Forall (fun y => key y <> wanted) before
             | None => Forall (fun y => key y <> wanted) items
             end).
  { intros A key wanted items. induction items as [|x items IH]; simpl.
    - constructor.
    - destruct (String.eqb (key x) wanted) eqn:Hx.
      + apply String.eqb_eq in Hx. exists [], items. by repeat split.
      + apply String.eqb_neq in Hx.
        destruct (List.find _ items) as [y|].
        * destruct IH as (before & after & -> & Hy & Hbefore).
          exists (x :: before), after. repeat split; [done|].
          by constructor.
        * by constructor. }
  split; [|split].
  - intros Hid. apply truthy_false in Hid.
    unfold getDocumentById, getAssetById. by rewrite Hid.
  - intros wanted documents s1 -> Hne Hh.
    unfold getDocumentById. simpl.
    apply String.eqb_neq in Hne. rewrite Hne. simpl. rewrite Hh.
    eexists. split; [done|]. apply Hfind.
  - intros wanted assets s1 -> Hne Hh.
    unfold getAssetById. simpl.
    apply String.eqb_neq in Hne. rewrite Hne. simpl. rewrite Hh.
    eexists. split; [done|]. apply Hfind.
Qed.

Lemma lookups_by_id_witness :
  runData dataStore (getDocumentById (Some "")) [postDocument] []
  = (Ok None, [postDocument], [])
  /\ exists found,
       runData dataStore (getDocumentById (Some "p1")) [postDocument] []
       = (Ok found, [postDocument], [DataCalled GetDocuments])
       /\ found = Some postDocument.
Proof.
  split.
  - apply (lookups_by_id dataStore (Some "") [postDocument] []). by right.
  - destruct (lookups_by_id dataStore (Some "p1") [postDocument] [])
      as (_ & Hdocs & _).
    destruct (Hdocs "p1" [postDocument] [postDocument] eq_refl)
      as (found & Hrun & _); [discriminate | reflexivity |].
    exists found. split; [exact Hrun|].
    simpl in Hrun. by injection Hrun as <-.
Defined.
